(** * ModuleTransformer: lowering of import/export/module syntax

    A shallow embedding of [src/codegeneration/ModuleTransformer.js] of the
    Traceur compiler.  Parse trees are an inductive type, the transformer
    object is a record threaded through a small state-and-exception monad,
    and the per-scope mapping from module names to temporary identifiers is
    a finite map. *)

From stdpp Require Import base option list strings pretty gmap fin_maps.

Open Scope string_scope.
Open Scope list_scope.

#[local] Set Warnings "-register-all".

(** ** Tokens and source positions *)

(** A source range, by start and end offset. *)
Definition SourceRange : Type := nat * nat.

(** [tree.location]; [None] is JavaScript's [null]. *)
Definition Location : Type := option SourceRange.

Inductive TokenType := VAR | STAR.

Record IdentifierToken := {
  id_location : Location;
  id_value : string
}.

(** A literal token: its text as written and its [processedValue], the
    string the literal denotes. *)
Record LiteralToken := {
  lit_location : Location;
  lit_value : string;
  processedValue : string
}.

(** The [ModuleSpecifier] tree: a location and the literal [token]. *)
Record ModuleSpecifier := {
  ms_location : Location;
  token : LiteralToken
}.

(** What a [LiteralExpression] can hold in the trees built here: a token
    taken from the input, a string value or a boolean. *)
Inductive Literal :=
| TokenLiteral (t : LiteralToken)
| StringLiteral (s : string)
| BooleanLiteral (b : bool)
| NullLiteral.

(** ** Parse trees *)

(** [tree.specifiers] of an import specifier set: the [*] token, whose
    [type] is [STAR], or an array of import specifiers, which has no
    [type]. *)
Inductive Specifiers (T : Type) :=
| StarSpecifiers
| ListSpecifiers (trees : list T).
Arguments StarSpecifiers {T}.
Arguments ListSpecifiers {T} trees.

Inductive ParseTree :=
(* module syntax handled by the transformer *)
| Script (location : Location) (scriptItemList : list ParseTree)
| ModuleTree (location : Location) (scriptItemList : list ParseTree)
| ExportDeclaration (location : Location) (declaration : ParseTree)
| NamedExport (location : Location) (moduleSpecifier : option ModuleSpecifier)
    (specifierSet : ParseTree)
| ExportSpecifierSet (location : Location) (specifiers : list ParseTree)
| ExportSpecifier (location : Location) (lhs : IdentifierToken)
    (rhs : option IdentifierToken)
| ExportStar (location : Location)
| ModuleSpecifierTree (specifier : ModuleSpecifier)
| ModuleDeclaration (location : Location) (identifier : IdentifierToken)
    (expression : ParseTree)
| ImportDeclaration (location : Location) (importSpecifierSet : ParseTree)
    (moduleSpecifier : ModuleSpecifier)
| ImportSpecifierSet (location : Location) (specifiers : Specifiers ParseTree)
| ImportSpecifier (location : Location) (lhs : IdentifierToken)
    (rhs : option IdentifierToken)
(* trees of any other kind, left alone by this pass *)
| OtherTree (kind : string) (text : string)
(* trees built by the transformer *)
| EmptyStatement (location : Location)
| VariableStatement (location : Location) (declarations : ParseTree)
| VariableDeclarationList (location : Location) (declarationType : TokenType)
    (declarations : list ParseTree)
| VariableDeclaration (location : Location) (lvalue : ParseTree)
    (initializer : option ParseTree)
| ObjectPattern (location : Location) (fields : list ParseTree)
| ObjectPatternField (location : Location) (name : ParseTree)
    (element : ParseTree)
| BindingElement (location : Location) (binding : ParseTree)
    (initializer : option ParseTree)
| BindingIdentifier (location : Location) (identifierToken : IdentifierToken)
| LiteralPropertyName (location : Location) (literalToken : IdentifierToken)
| IdentifierExpression (location : Location) (identifierToken : IdentifierToken)
| MemberExpression (location : Location) (operand : ParseTree)
    (memberName : IdentifierToken)
| CallExpression (location : Location) (operand : ParseTree)
    (args : list ParseTree)
| LiteralExpression (location : Location) (literal : Literal)
| ThisExpression (location : Location)
| FunctionExpression (location : Location) (functionBody : list ParseTree)
| ReturnStatement (location : Location) (expression : ParseTree)
| ExpressionStatement (location : Location) (expression : ParseTree)
| ObjectLiteralExpression (location : Location)
    (propertyNameAndValues : list ParseTree)
| PropertyNameAssignment (location : Location) (name : IdentifierToken)
    (value : ParseTree).

(** [tree.type], for the kinds this file tests. *)
Inductive ParseTreeType :=
| SCRIPT | MODULE | EXPORT_SPECIFIER | EXPORT_STAR | OTHER_TYPE.

Definition type (tree : ParseTree) : ParseTreeType :=
  match tree with
  | Script _ _ => SCRIPT
  | ModuleTree _ _ => MODULE
  | ExportSpecifier _ _ _ => EXPORT_SPECIFIER
  | ExportStar _ => EXPORT_STAR
  | _ => OTHER_TYPE
  end.

Global Instance ParseTreeType_eq_dec : EqDecision ParseTreeType.
Proof. solve_decision. Defined.

Global Instance TokenType_eq_dec : EqDecision TokenType.
Proof. solve_decision. Defined.

(** ** Symbols, modules and the project *)

(** An entry of a module's export table: the exported [name], the [tree]
    that declares it and, for a re-export, the [relatedTree], the module
    specifier it comes from. *)
Record ExportSymbol := {
  name : string;
  tree : ParseTree;
  relatedTree : option ModuleSpecifier
}.

(** A resolved module: its [url] ([None] when it has none) and
    [getExports()], the export table in insertion order. *)
Record ModuleSymbol := {
  module_url : option string;
  getExports : list ExportSymbol
}.

(** The project: its fallback [url], the state of its identifier generator
    (the index of the next name) and the registry of the modules that star
    imports refer to, keyed by the import specifier set. *)
Record Project := {
  project_url : option string;
  identifierGenerator : nat;
  getModuleForStarTree : ParseTree -> option ModuleSymbol
}.

(** ** The transformer object *)

(** The fields of a [ModuleTransformer].  [idMappingStack_] is the array of
    mappings, innermost scope last.  [identifierIndex] is the state of the
    project's identifier generator. *)
Record ModuleTransformer := {
  project : Project;
  module : option ModuleSymbol;
  idMappingStack_ : list (gmap string string);
  identifierIndex : nat
}.

(** ** Computations on the transformer: state and exceptions *)

Inductive Error := AssertionError | TypeError.

Inductive Completion (A : Type) :=
| Normal (a : A)
| Throw (e : Error).
Arguments Normal {A} a.
Arguments Throw {A} e.

(** A method body: it runs on the transformer object, may change it, and
    completes normally or throws.  A throw keeps the changes made so far. *)
Definition M (A : Type) : Type :=
  ModuleTransformer -> Completion A * ModuleTransformer.

Definition ret {A} (a : A) : M A := fun this => (Normal a, this).

Definition throw {A} (e : Error) : M A := fun this => (Throw e, this).

Definition bind {A B} (m : M A) (k : A -> M B) : M B :=
  fun this =>
    match m this with
    | (Normal a, this') => k a this'
    | (Throw e, this') => (Throw e, this')
    end.

Notation "'let*' x ':=' m 'in' k" := (bind m (fun x => k))
  (at level 10, x name, m at level 100, k at level 200).

Definition get : M ModuleTransformer := fun this => (Normal this, this).

(** Modelled from the spec: [assert] is imported from util/assert, which is
    not part of this file's source.  A violated precondition is an
    immediate, unrecoverable assertion failure: [assert(condition)] throws
    on a falsy condition and does nothing on a truthy one. *)
Definition assert (condition : bool) : M unit :=
  if condition then ret tt else throw AssertionError.

(** Modelled from the spec: the outcome of [assert(condition)] in a static
    method, where there is no transformer yet; the same helper as [assert]
    above. *)
Definition assertion (condition : bool) : Completion unit :=
  if condition then Normal tt else Throw AssertionError.

(** The rest of a static method, run when the statement before it has
    completed normally. *)
Definition andThen {A B} (c : Completion A) (k : A -> Completion B)
  : Completion B :=
  match c with
  | Normal a => k a
  | Throw e => Throw e
  end.

(** [transformList]'s loop: the elements are transformed left to right. *)
Fixpoint mapM {A B} (f : A -> M B) (l : list A) : M (list B) :=
  match l with
  | [] => ret []
  | x :: rest =>
      let* y := f x in
      let* ys := mapM f rest in
      ret (y :: ys)
  end.

(** JavaScript truthiness of a value that is a string or missing. *)
Definition truthy (s : option string) : bool :=
  match s with
  | None => false
  | Some s => negb (String.eqb s "")
  end.

(** ** Tree construction (ParseTreeFactory)

    The tree-construction helpers for variable declarations, member access,
    object literals and identifiers are imported from ParseTreeFactory,
    which is not part of this file's source; each builds the node its name
    says, with a [null] location. *)

(** An argument that the factory accepts as a string or as a token. *)
Inductive Name :=
| OfString (s : string)
| OfToken (t : IdentifierToken).

(** Modelled from the spec: ParseTreeFactory's [createIdentifierToken], an
    identifier token without a location. *)
Definition createIdentifierToken (s : string) : IdentifierToken :=
  {| id_location := None; id_value := s |}.

(** The token of a name argument. *)
Definition identifierTokenOf (n : Name) : IdentifierToken :=
  match n with
  | OfString s => createIdentifierToken s
  | OfToken t => t
  end.

(** Modelled from the spec: ParseTreeFactory's [createBindingIdentifier]. *)
Definition createBindingIdentifier (n : Name) : ParseTree :=
  BindingIdentifier None (identifierTokenOf n).

(** Modelled from the spec: ParseTreeFactory's
    [createIdentifierExpression]. *)
Definition createIdentifierExpression (n : Name) : ParseTree :=
  IdentifierExpression None (identifierTokenOf n).

(** Modelled from the spec: ParseTreeFactory's [createMemberExpression],
    member access on the identifier [operand]. *)
Definition createMemberExpression (operand : string) (memberName : Name)
  : ParseTree :=
  MemberExpression None (createIdentifierExpression (OfString operand))
    (identifierTokenOf memberName).

(** Modelled from the spec: ParseTreeFactory's
    [createObjectLiteralExpression]. *)
Definition createObjectLiteralExpression (properties : list ParseTree)
  : ParseTree :=
  ObjectLiteralExpression None properties.

(** Modelled from the spec: ParseTreeFactory's [createUseStrictDirective],
    the strict-mode marker statement. *)
Definition createUseStrictDirective : ParseTree :=
  ExpressionStatement None (LiteralExpression None (StringLiteral "use strict")).

(** The left side of a variable declaration: a name, or a pattern tree. *)
Inductive Binding :=
| BindingName (n : Name)
| BindingTree (t : ParseTree).

(** Modelled from the spec: ParseTreeFactory's [createVariableStatement], a
    variable statement with one declaration; a name on the left side
    becomes a binding identifier, a pattern is taken as it is. *)
Definition createVariableStatement (binaryOperator : TokenType)
    (identifier : Binding) (initializer : ParseTree) : ParseTree :=
  let lvalue :=
    match identifier with
    | BindingName n => createBindingIdentifier n
    | BindingTree t => t
    end in
  VariableStatement None
    (VariableDeclarationList None binaryOperator
       [VariableDeclaration None lvalue (Some initializer)]).

(** ** Templates (PlaceholderParser)

    The templates are expanded by PlaceholderParser, which is not part of
    this file's source; the trees below are the parses of the template
    texts of the source, as the wire format of the generated output gives
    them, with the placeholders filled in. *)

(** The member access [object.property] of a template text. *)
Definition memberOf (object property : string) : ParseTree :=
  MemberExpression None (IdentifierExpression None (createIdentifierToken object))
    (createIdentifierToken property).

(** Modelled from the spec: [parseExpression `System.get(${token})`]. *)
Definition parseExpression_System_get (token : LiteralToken) : ParseTree :=
  CallExpression None (memberOf "System" "get")
    [LiteralExpression (lit_location token) (TokenLiteral token)].

(** Modelled from the spec: [parsePropertyDefinition `${name}: { get:
    function() { return ${returnExpression}; }, enumerable: true }`]. *)
Definition parsePropertyDefinition_getter (name : string)
    (returnExpression : ParseTree) : ParseTree :=
  PropertyNameAssignment None (createIdentifierToken name)
    (ObjectLiteralExpression None
       [PropertyNameAssignment None (createIdentifierToken "get")
          (FunctionExpression None [ReturnStatement None returnExpression]);
        PropertyNameAssignment None (createIdentifierToken "enumerable")
          (LiteralExpression None (BooleanLiteral true))]).

(** Modelled from the spec: [parseStatement `return
    Object.preventExtensions(Object.create(null, ${descriptors}));`]. *)
Definition parseStatement_return_exports (descriptors : ParseTree) : ParseTree :=
  ReturnStatement None
    (CallExpression None (memberOf "Object" "preventExtensions")
       [CallExpression None (memberOf "Object" "create")
          [LiteralExpression None NullLiteral; descriptors]]).

(** Modelled from the spec: a string placeholder becomes a string literal;
    a missing value does not reach the template below, which [assert]
    guards. *)
Definition stringPlaceholder (value : option string) : ParseTree :=
  match value with
  | Some s => LiteralExpression None (StringLiteral s)
  | None => LiteralExpression None NullLiteral
  end.

(** Modelled from the spec: [parseStatement
    `System.get('@traceur/module').registerModule(${url}, function() {
    ${statements} }, this);`]; the statements become the body of the
    function. *)
Definition parseStatement_registerModule (url : option string)
    (statements : list ParseTree) : ParseTree :=
  ExpressionStatement None
    (CallExpression None
       (MemberExpression None
          (CallExpression None (memberOf "System" "get")
             [LiteralExpression None (StringLiteral "@traceur/module")])
          (createIdentifierToken "registerModule"))
       [stringPlaceholder url;
        FunctionExpression None statements;
        ThisExpression None]).

(** ** The scoped temporary-name allocator *)

Definition withIdMappingStack (stack : list (gmap string string))
    (this : ModuleTransformer) : ModuleTransformer :=
  {| project := project this;
     module := module this;
     idMappingStack_ := stack;
     identifierIndex := identifierIndex this |}.

Definition withIdentifierIndex (index : nat) (this : ModuleTransformer)
  : ModuleTransformer :=
  {| project := project this;
     module := module this;
     idMappingStack_ := idMappingStack_ this;
     identifierIndex := index |}.

(** Modelled from the spec: the identifier generator of the project and
    [getTempIdentifier] of TempVarTransformer are not part of this file's
    source.  A temp name is a fresh, globally unique identifier drawn from
    a reserved namespace: the prefix [$__] followed by the generator's
    index, which then advances. *)
Definition generateUniqueIdentifier (index : nat) : string :=
  "$__" +:+ pretty index.

(** Modelled from the spec: [getTempIdentifier] of TempVarTransformer hands
    out the generator's next name. *)
Definition getTempIdentifier : M string :=
  fun this =>
    (Normal (generateUniqueIdentifier (identifierIndex this)),
     withIdentifierIndex (S (identifierIndex this)) this).

(** [idMapping[moduleName] = id] on the mapping object at index [top] of the
    stack. *)
Definition storeId (top : nat) (moduleName id : string) : M unit :=
  fun this =>
    (Normal tt,
     withIdMappingStack
       (alter (insert moduleName id) top (idMappingStack_ this)) this).

Definition getTempVarNameForModuleSpecifier (moduleSpecifier : ModuleSpecifier)
  : M string :=
  let moduleName := processedValue (token moduleSpecifier) in
  let* this := get in
  let top := length (idMappingStack_ this) - 1 in
  match idMappingStack_ this !! top with
  | None => throw TypeError
  | Some idMapping =>
      let id := idMapping !! moduleName in
      match id with
      | Some name =>
          if truthy id then ret name
          else
            let* fresh := getTempIdentifier in
            let* _ := storeId top moduleName fresh in
            ret fresh
      | None =>
          let* fresh := getTempIdentifier in
          let* _ := storeId top moduleName fresh in
          ret fresh
      end
  end.

(** [super.pushTempVarState()] and [super.popTempVarState()] keep the
    bookkeeping of TempVarTransformer, which has no part in the fields
    modelled here. *)
Definition pushTempVarState : M unit :=
  fun this =>
    (Normal tt, withIdMappingStack (idMappingStack_ this ++ [∅]) this).

Definition popTempVarState : M unit :=
  fun this =>
    (Normal tt, withIdMappingStack (removelast (idMappingStack_ this)) this).

(** [new ModuleTransformer(project, module = null)] *)
Definition new_ModuleTransformer (project : Project)
    (module : option ModuleSymbol) : ModuleTransformer :=
  {| project := project;
     module := module;
     idMappingStack_ := [∅];
     identifierIndex := identifierGenerator project |}.

(** [get url()] *)
Definition url (this : ModuleTransformer) : option string :=
  match module this with
  | Some m => module_url m
  | None => project_url (project this)
  end.

(** ** Export emission *)

(** Whether an optional tree is present (an object is truthy). *)
Definition present {A} (o : option A) : bool :=
  match o with Some _ => true | None => false end.

Definition getGetterExport (symbol : ExportSymbol) : M ParseTree :=
  let name := name symbol in
  let tree := tree symbol in
  let* returnExpression :=
    match tree with
    | ExportSpecifier _ lhs _ =>
        match relatedTree symbol with
        | Some moduleSpecifier =>
            let* idName := getTempVarNameForModuleSpecifier moduleSpecifier in
            ret (createMemberExpression idName (OfToken lhs))
        | None => ret (createIdentifierExpression (OfToken lhs))
        end
    | ExportStar _ =>
        let* _ := assert (present (relatedTree symbol)) in
        match relatedTree symbol with
        | Some moduleSpecifier =>
            let* idName := getTempVarNameForModuleSpecifier moduleSpecifier in
            ret (createMemberExpression idName (OfString name))
        | None => throw TypeError
        end
    | _ => ret (createIdentifierExpression (OfString name))
    end in
  ret (parsePropertyDefinition_getter name returnExpression).

Definition createExportStatement : M ParseTree :=
  let* this := get in
  match module this with
  | None => throw TypeError
  | Some m =>
      let* properties := mapM getGetterExport (getExports m) in
      let descriptors := createObjectLiteralExpression properties in
      ret (parseStatement_return_exports descriptors)
  end.

(** ** The transform methods

    The methods call back into [transformAny], the dispatch on the kind of a
    tree; they take it as [transformAny] below and the dispatch is tied to
    them afterwards. *)

Section Methods.

Variable transformAny : ParseTree -> M ParseTree.

(** Modelled from the spec: [transformList] belongs to the generic walker,
    which is not part of this file's source; it rewrites the elements of
    the list in order and returns the list of the results. *)
Definition transformList (trees : list ParseTree) : M (list ParseTree) :=
  mapM transformAny trees.

Definition transformModule (location : Location)
    (scriptItemList : list ParseTree) : M ParseTree :=
  let* this := get in
  let* _ := assert (truthy (url this)) in
  let* _ := pushTempVarState in
  let* items := transformList scriptItemList in
  let* exportStatement := createExportStatement in
  let statements :=
    [createUseStrictDirective] ++ items ++ [exportStatement] in
  let* _ := popTempVarState in
  let* this := get in
  let registerStatement :=
    parseStatement_registerModule (url this) statements in
  ret (Script location [registerStatement]).

Definition transformExportDeclaration (declaration : ParseTree)
  : M ParseTree :=
  transformAny declaration.

Definition transformModuleSpecifier (tree : ModuleSpecifier) : M ParseTree :=
  let token := token tree in
  ret (parseExpression_System_get token).

Definition transformNamedExport (moduleSpecifier : option ModuleSpecifier)
  : M ParseTree :=
  match moduleSpecifier with
  | Some moduleSpecifier =>
      let* expression := transformModuleSpecifier moduleSpecifier in
      let* idName := getTempVarNameForModuleSpecifier moduleSpecifier in
      ret (createVariableStatement VAR (BindingName (OfString idName))
             expression)
  | None => ret (EmptyStatement None)
  end.

Definition transformModuleDeclaration (identifier : IdentifierToken)
    (expression : ParseTree) : M ParseTree :=
  let* initializer := transformAny expression in
  ret (createVariableStatement VAR (BindingName (OfToken identifier))
         initializer).

Definition transformImportDeclaration (importSpecifierSet : ParseTree)
    (moduleSpecifier : ModuleSpecifier) : M ParseTree :=
  let* binding := transformAny importSpecifierSet in
  let* initializer := transformModuleSpecifier moduleSpecifier in
  ret (createVariableStatement VAR (BindingTree binding) initializer).

Definition transformImportSpecifierSet (location : Location)
    (specifiers : Specifiers ParseTree) : M ParseTree :=
  let* fields :=
    match specifiers with
    | StarSpecifiers =>
        let* this := get in
        match getModuleForStarTree (project this)
                (ImportSpecifierSet location specifiers) with
        | None => throw TypeError
        | Some module =>
            ret (map (fun exportSymbol =>
                        BindingElement location
                          (createBindingIdentifier
                             (OfString (name exportSymbol)))
                          None)
                     (getExports module))
        end
    | ListSpecifiers trees => transformList trees
    end in
  ret (ObjectPattern None fields).

Definition transformImportSpecifier (location : Location)
    (lhs : IdentifierToken) (rhs : option IdentifierToken) : M ParseTree :=
  match rhs with
  | Some rhs =>
      let binding := BindingIdentifier location rhs in
      let bindingElement := BindingElement location binding None in
      let name := LiteralPropertyName (id_location lhs) lhs in
      ret (ObjectPatternField location name bindingElement)
  | None =>
      ret (BindingElement location (createBindingIdentifier (OfToken lhs))
             None)
  end.

End Methods.

(** Modelled from the spec: the generic walker (ParseTreeTransformer and
    TempVarTransformer) is not part of this file's source.  [transformAny]
    dispatches on the kind of the tree to the method of that kind; a script
    is rebuilt around its transformed items and a tree of a kind without a
    method here is copied as it is.  A module specifier in the typed fields
    of a named export or an import declaration goes to
    [transformModuleSpecifier] at once. *)
Fixpoint transformAny (tree : ParseTree) : M ParseTree :=
  match tree with
  | Script location scriptItemList =>
      let* items := transformList transformAny scriptItemList in
      ret (Script location items)
  | ModuleTree location scriptItemList =>
      transformModule transformAny location scriptItemList
  | ExportDeclaration _ declaration =>
      transformExportDeclaration transformAny declaration
  | NamedExport _ moduleSpecifier _ =>
      transformNamedExport moduleSpecifier
  | ModuleSpecifierTree specifier =>
      transformModuleSpecifier specifier
  | ModuleDeclaration _ identifier expression =>
      transformModuleDeclaration transformAny identifier expression
  | ImportDeclaration _ importSpecifierSet moduleSpecifier =>
      transformImportDeclaration transformAny importSpecifierSet
        moduleSpecifier
  | ImportSpecifierSet location specifiers =>
      transformImportSpecifierSet transformAny location specifiers
  | ImportSpecifier location lhs rhs =>
      transformImportSpecifier location lhs rhs
  | _ => ret tree
  end.

(** ** The entry points *)

(** [static transform(project, tree)] *)
Definition transform (project : Project) (tree : ParseTree)
  : Completion ParseTree :=
  andThen (assertion (bool_decide (type tree = SCRIPT))) (fun _ =>
  fst (transformAny tree (new_ModuleTransformer project None))).

(** [static transformAsModule(project, module, tree)] *)
Definition transformAsModule (project : Project)
    (module : option ModuleSymbol) (tree : ParseTree) : Completion ParseTree :=
  andThen (assertion (bool_decide (type tree = MODULE))) (fun _ =>
  andThen (assertion (present module)) (fun _ =>
  fst (transformAny tree (new_ModuleTransformer project module)))).

(** ** Reading the allocator's state *)

(** The mapping of the innermost scope: the last element of the stack. *)
Definition topMapping (this : ModuleTransformer)
  : option (gmap string string) :=
  idMappingStack_ this !! (length (idMappingStack_ this) - 1).

(** The transformer after a fresh name was handed out and stored under
    [moduleName] in the innermost mapping. *)
Definition allocated (moduleName : string) (this : ModuleTransformer)
  : ModuleTransformer :=
  withIdMappingStack
    (alter (insert moduleName
              (generateUniqueIdentifier (identifierIndex this)))
       (length (idMappingStack_ this) - 1) (idMappingStack_ this))
    (withIdentifierIndex (S (identifierIndex this)) this).

(** Two states of one transformer object: the same project and module, the
    same depth of scopes. *)
Definition sameObject (this this' : ModuleTransformer) : Prop :=
  project this' = project this /\
  module this' = module this /\
  length (idMappingStack_ this') = length (idMappingStack_ this).

(** The names of a mapping were handed out by the generator below [index],
    and no two module names share one. *)
Definition mappingFresh (index : nat) (idMapping : gmap string string)
  : Prop :=
  (forall moduleName id, idMapping !! moduleName = Some id ->
     exists i, i < index /\ id = generateUniqueIdentifier i) /\
  (forall moduleName1 moduleName2 id,
     idMapping !! moduleName1 = Some id ->
     idMapping !! moduleName2 = Some id ->
     moduleName1 = moduleName2).

Definition scopeFresh (this : ModuleTransformer) : Prop :=
  exists idMapping,
    topMapping this = Some idMapping /\
    mappingFresh (identifierIndex this) idMapping.

(** A lookup-call statement for the module name [moduleName]:
    [var <id> = System.get(<token>)] with a token of that value. *)
Definition isLookupCallStatement (moduleName : string) (statement : ParseTree)
  : bool :=
  match statement with
  | VariableStatement _
      (VariableDeclarationList _ VAR
         [VariableDeclaration _ (BindingIdentifier _ _)
            (Some (CallExpression _
                     (MemberExpression _ (IdentifierExpression _ object)
                        property)
                     [LiteralExpression _ (TokenLiteral token)]))]) =>
      String.eqb (id_value object) "System"
      && String.eqb (id_value property) "get"
      && String.eqb (processedValue token) moduleName
  | _ => false
  end.

Definition countLookupCalls (moduleName : string)
    (statements : list ParseTree) : nat :=
  length (filter (fun s => isLookupCallStatement moduleName s = true)
            statements).

(** Every star import inside the tree refers to a module the project has
    resolved. *)
Fixpoint resolved (p : Project) (tree : ParseTree) : bool :=
  match tree with
  | Script _ scriptItemList => forallb (resolved p) scriptItemList
  | ModuleTree _ scriptItemList => forallb (resolved p) scriptItemList
  | ExportDeclaration _ declaration => resolved p declaration
  | ModuleDeclaration _ _ expression => resolved p expression
  | ImportDeclaration _ importSpecifierSet _ => resolved p importSpecifierSet
  | ImportSpecifierSet _ StarSpecifiers => present (getModuleForStarTree p tree)
  | ImportSpecifierSet _ (ListSpecifiers trees) => forallb (resolved p) trees
  | _ => true
  end.

(** An export symbol that export emission accepts: a star export names the
    module it re-exports. *)
Definition exportReady (symbol : ExportSymbol) : bool :=
  match tree symbol with
  | ExportStar _ => present (relatedTree symbol)
  | _ => true
  end.

(** The transformer can emit a module: its URL is there and not empty, it
    has a module, and every export symbol of the module is accepted. *)
Definition moduleReady (this : ModuleTransformer) : Prop :=
  truthy (url this) = true /\
  exists m, module this = Some m /\
            forallb exportReady (getExports m) = true.

(** The trees whose children [transformAny] walks into. *)
Definition walked (tree : ParseTree) : bool :=
  match tree with
  | Script _ _ | ModuleTree _ _ | ExportDeclaration _ _
  | ModuleDeclaration _ _ _ | ImportDeclaration _ _ _
  | ImportSpecifierSet _ (ListSpecifiers _) => true
  | _ => false
  end.

(** [transformAny] returns on the tree, in every state of a transformer
    that can emit its module, inside a scope, with the star imports of the
    tree resolved; the transformer stays the same object. *)
Definition lowers (tree : ParseTree) : Prop :=
  forall this,
    resolved (project this) tree = true ->
    moduleReady this ->
    idMappingStack_ this <> [] ->
    exists tree' this',
      transformAny tree this = (Normal tree', this') /\ sameObject this this'.

(** ** Example data

    A small project, used to run the definitions on concrete input. *)

(** A literal token by its text and the value the text denotes. *)
Definition literalOf (text value : string) : LiteralToken :=
  {| lit_location := None; lit_value := text; processedValue := value |}.

Definition specifierOf (text value : string) : ModuleSpecifier :=
  {| ms_location := None; token := literalOf text value |}.

Definition exportSpecifierOf (lhs : string) : ParseTree :=
  ExportSpecifier None (createIdentifierToken lhs) None.

(** [export {a} from 'm'] *)
Definition reexportOf (lhs text value : string) : ParseTree :=
  NamedExport None (Some (specifierOf text value))
    (ExportSpecifierSet None [exportSpecifierOf lhs]).

Definition functionDeclarationOf (name : string) : ParseTree :=
  OtherTree "FUNCTION_DECLARATION" ("function " +:+ name +:+ "() {}").

(** The target of the star import below: it exports [x] and [y]. *)
Definition exampleTarget : ModuleSymbol :=
  {| module_url := Some "target.js";
     getExports :=
       [ {| name := "x"; tree := functionDeclarationOf "x";
            relatedTree := None |};
         {| name := "y"; tree := functionDeclarationOf "y";
            relatedTree := None |} ] |}.

(** A module without exports. *)
Definition emptyTarget : ModuleSymbol :=
  {| module_url := Some "empty.js"; getExports := [] |}.

(** [import * from 'target'], at two places of the source. *)
Definition starImportSet (location : Location) : ParseTree :=
  ImportSpecifierSet location StarSpecifiers.

Definition exampleProject : Project :=
  {| project_url := Some "project.js";
     identifierGenerator := 0;
     getModuleForStarTree := fun tree =>
       match tree with
       | ImportSpecifierSet (Some (10, 11)) StarSpecifiers => Some exampleTarget
       | ImportSpecifierSet (Some (20, 21)) StarSpecifiers => Some emptyTarget
       | _ => None
       end |}.

(** A module with exports [{a, b, c}], all its own bindings. *)
Definition ownModule : ModuleSymbol :=
  {| module_url := Some "own.js";
     getExports :=
       [ {| name := "a"; tree := functionDeclarationOf "a";
            relatedTree := None |};
         {| name := "b"; tree := functionDeclarationOf "b";
            relatedTree := None |};
         {| name := "c"; tree := functionDeclarationOf "c";
            relatedTree := None |} ] |}.

(** A module that re-exports [a] and [b] from ['m'], everything from ['n'],
    exports the local [c] through a specifier and declares [d]. *)
Definition exampleModule : ModuleSymbol :=
  {| module_url := Some "example.js";
     getExports :=
       [ {| name := "a"; tree := exportSpecifierOf "a";
            relatedTree := Some (specifierOf "'m'" "m") |};
         {| name := "b"; tree := exportSpecifierOf "b";
            relatedTree := Some (specifierOf "'m'" "m") |};
         {| name := "z"; tree := ExportStar None;
            relatedTree := Some (specifierOf "'n'" "n") |};
         {| name := "c"; tree := exportSpecifierOf "c";
            relatedTree := None |};
         {| name := "d"; tree := functionDeclarationOf "d";
            relatedTree := None |} ] |}.

(** The statements of [exampleModule]'s source. *)
Definition exampleItems : list ParseTree :=
  [ reexportOf "a" "'m'" "m";
    reexportOf "b" "'m'" "m";
    NamedExport None (Some (specifierOf "'n'" "n")) (ExportStar None);
    NamedExport None None (ExportSpecifierSet None [exportSpecifierOf "c"]);
    ExportDeclaration None (functionDeclarationOf "d");
    ImportDeclaration None (starImportSet (Some (10, 11)))
      (specifierOf "'target'" "target") ].

Definition exampleTransformer : ModuleTransformer :=
  new_ModuleTransformer exampleProject (Some exampleModule).

(** A module whose star export names no module. *)
Definition brokenStarSymbol : ExportSymbol :=
  {| name := "w"; tree := ExportStar None; relatedTree := None |}.

(** The innermost scope has the temp name [id], a truthy one, for the
    module name [moduleName]. *)
Definition holdsName (moduleName id : string) (this : ModuleTransformer)
  : Prop :=
  exists idMapping,
    topMapping this = Some idMapping
    /\ idMapping !! moduleName = Some id
    /\ truthy (Some id) = true.

(** ** Scopes across a run *)

(** What a run on the transformer keeps: the project and the module, the
    depth of the scopes, every scope but the innermost, and a generator
    that never steps back. *)
Definition keepsOuterScopes (this this' : ModuleTransformer) : Prop :=
  project this' = project this /\
  module this' = module this /\
  length (idMappingStack_ this') = length (idMappingStack_ this) /\
  removelast (idMappingStack_ this') = removelast (idMappingStack_ this) /\
  identifierIndex this <= identifierIndex this'.

(** [transformAny], when it returns on the tree, keeps the outer scopes. *)
Definition walkKeeps (t : ParseTree) : Prop :=
  forall this t' this',
    transformAny t this = (Normal t', this') -> keepsOuterScopes this this'.

(** [wrapped] is the statement [plain], bare or inside an export
    declaration. *)
Definition exportWrapped (wrapped plain : ParseTree) : Prop :=
  wrapped = plain \/
  exists location, wrapped = ExportDeclaration location plain.

(** [import {foo as bar, baz} from 'm'] *)
Definition namedImport : ParseTree :=
  ImportDeclaration None
    (ImportSpecifierSet None
       (ListSpecifiers
          [ ImportSpecifier (Some (1, 2)) (createIdentifierToken "foo")
              (Some (createIdentifierToken "bar"));
            ImportSpecifier (Some (3, 4)) (createIdentifierToken "baz")
              None ]))
    (specifierOf "'m'" "m").

(** A module whose second export is a star export that names no module. *)
Definition brokenModule : ModuleSymbol :=
  {| module_url := Some "broken.js";
     getExports :=
       [ {| name := "a"; tree := exportSpecifierOf "a";
            relatedTree := Some (specifierOf "'m'" "m") |};
         brokenStarSymbol ] |}.

(** ** Proof steps *)

(** Unfold the plumbing of the monad in the goal. *)
Ltac unfold_M :=
  cbv beta iota delta [bind ret get throw assert present].

(** A tree that is returned as it is, in an unchanged transformer. *)
Ltac exists_tree_unchanged this :=
  eexists _, this;
  split; [reflexivity | repeat split; reflexivity].

(** * Properties *)

(** ** The monad *)

Lemma bind_normal {A B} (m : M A) (k : A -> M B) this a this' :
  m this = (Normal a, this') -> bind m k this = k a this'.
Proof. intros H. unfold bind. now rewrite H. Qed.

Lemma sameObject_refl this : sameObject this this.
Proof. now unfold sameObject. Qed.

Lemma sameObject_trans this1 this2 this3 :
  sameObject this1 this2 -> sameObject this2 this3 -> sameObject this1 this3.
Proof.
  unfold sameObject. intros (H1 & H2 & H3) (H4 & H5 & H6).
  repeat split; congruence.
Qed.

Lemma sameObject_url this this' : sameObject this this' -> url this' = url this.
Proof. intros (Hp & Hm & _). unfold url. now rewrite Hp, Hm. Qed.

Lemma sameObject_nonempty this this' :
  sameObject this this' ->
  idMappingStack_ this <> [] -> idMappingStack_ this' <> [].
Proof.
  intros (_ & _ & Hlen) Hne Hnil. rewrite Hnil in Hlen.
  destruct (idMappingStack_ this); [congruence | discriminate].
Qed.

Lemma sameObject_moduleReady this this' :
  sameObject this this' -> moduleReady this -> moduleReady this'.
Proof.
  intros Hsame (Hurl & m & Hm & Hwf). split.
  - now rewrite (sameObject_url _ _ Hsame).
  - exists m. destruct Hsame as (_ & Hmod & _). rewrite Hmod. now split.
Qed.

(** ** Generated names *)

Lemma generateUniqueIdentifier_truthy index :
  truthy (Some (generateUniqueIdentifier index)) = true.
Proof. reflexivity. Qed.

Lemma generateUniqueIdentifier_inj i j :
  generateUniqueIdentifier i = generateUniqueIdentifier j -> i = j.
Proof.
  unfold generateUniqueIdentifier. cbn [String.append].
  intros H. injection H as H. cbn [String.append] in H.
  now apply pretty_nat_inj in H.
Qed.

(** ** The allocator *)

Lemma topMapping_is_Some this :
  idMappingStack_ this <> [] -> exists idMapping, topMapping this = Some idMapping.
Proof.
  intros Hne. unfold topMapping.
  destruct (lookup_lt_is_Some_2 (idMappingStack_ this)
              (length (idMappingStack_ this) - 1)) as [m Hm].
  - destruct (idMappingStack_ this); [done | simpl; lia].
  - eauto.
Qed.

Lemma topMapping_allocated moduleName this idMapping :
  topMapping this = Some idMapping ->
  topMapping (allocated moduleName this)
  = Some (<[moduleName := generateUniqueIdentifier (identifierIndex this)]>
            idMapping).
Proof.
  unfold topMapping, allocated. simpl. intros H.
  rewrite length_alter, list_lookup_alter_eq, H. reflexivity.
Qed.

Lemma sameObject_allocated moduleName this :
  sameObject this (allocated moduleName this).
Proof.
  unfold sameObject, allocated. simpl. now rewrite length_alter.
Qed.

(** A module name that has a (non-empty) name in the innermost mapping gets
    that name, and nothing changes. *)
Lemma getTempVarName_hit moduleSpecifier this idMapping id :
  topMapping this = Some idMapping ->
  idMapping !! processedValue (token moduleSpecifier) = Some id ->
  truthy (Some id) = true ->
  getTempVarNameForModuleSpecifier moduleSpecifier this = (Normal id, this).
Proof.
  intros Htop Hid Htruthy. unfold getTempVarNameForModuleSpecifier, bind, get.
  unfold topMapping in Htop. rewrite Htop, Hid, Htruthy. reflexivity.
Qed.

(** A module name without a name gets the generator's next one, stored in
    the innermost mapping. *)
Lemma getTempVarName_miss moduleSpecifier this idMapping :
  topMapping this = Some idMapping ->
  truthy (idMapping !! processedValue (token moduleSpecifier)) = false ->
  getTempVarNameForModuleSpecifier moduleSpecifier this
  = (Normal (generateUniqueIdentifier (identifierIndex this)),
     allocated (processedValue (token moduleSpecifier)) this).
Proof.
  intros Htop Hfalsy. unfold getTempVarNameForModuleSpecifier, bind, get.
  unfold topMapping in Htop. rewrite Htop.
  destruct (idMapping !! processedValue (token moduleSpecifier)) as [id|] eqn:Hid.
  - rewrite Hfalsy. reflexivity.
  - reflexivity.
Qed.

Lemma truthy_Some_inv (o : option string) :
  truthy o = true -> exists id, o = Some id.
Proof. destruct o; [eauto | discriminate]. Qed.

(** Inside a scope the allocator always returns a name; the name is not
    empty and is the one the innermost mapping then holds for the module
    name. *)
Lemma getTempVarName_returns moduleSpecifier this :
  idMappingStack_ this <> [] ->
  exists id this' idMapping',
    getTempVarNameForModuleSpecifier moduleSpecifier this = (Normal id, this')
    /\ sameObject this this'
    /\ truthy (Some id) = true
    /\ topMapping this' = Some idMapping'
    /\ idMapping' !! processedValue (token moduleSpecifier) = Some id.
Proof.
  intros Hne. destruct (topMapping_is_Some _ Hne) as [idMapping Htop].
  destruct (truthy (idMapping !! processedValue (token moduleSpecifier)))
    eqn:Htruthy.
  - destruct (truthy_Some_inv _ Htruthy) as [id Hid].
    exists id, this, idMapping. rewrite Hid in Htruthy.
    split; [now apply getTempVarName_hit with idMapping |].
    auto using sameObject_refl.
  - eexists _, _, _.
    split; [now apply getTempVarName_miss with idMapping |].
    split; [apply sameObject_allocated |].
    split; [apply generateUniqueIdentifier_truthy |].
    split; [apply topMapping_allocated, Htop |].
    apply lookup_insert_eq.
Qed.

Lemma mappingFresh_truthy index idMapping moduleName :
  mappingFresh index idMapping ->
  truthy (idMapping !! moduleName) = false ->
  idMapping !! moduleName = None.
Proof.
  intros [Hgen _] Hfalsy.
  destruct (idMapping !! moduleName) as [id|] eqn:Hid; [| reflexivity].
  destruct (Hgen _ _ Hid) as (i & _ & ->).
  now rewrite generateUniqueIdentifier_truthy in Hfalsy.
Qed.

Lemma mappingFresh_empty index : mappingFresh index ∅.
Proof.
  split; intros *; rewrite lookup_empty; discriminate.
Qed.

(** Storing the generator's next name under a module name that has none
    keeps the mapping fresh for the advanced generator. *)
Lemma mappingFresh_insert index idMapping moduleName :
  mappingFresh index idMapping ->
  idMapping !! moduleName = None ->
  mappingFresh (S index)
    (<[moduleName := generateUniqueIdentifier index]> idMapping).
Proof.
  intros [Hgen Hinj] Hnone. split.
  - intros k id. rewrite lookup_insert. case_decide.
    + intros [= <-]. exists index. split; [lia | reflexivity].
    + intros Hk. destruct (Hgen _ _ Hk) as (i & Hi & ->).
      exists i. split; [lia | reflexivity].
  - intros k1 k2 id. rewrite !lookup_insert.
    repeat case_decide; subst; try congruence.
    + intros [= <-] Hk2. destruct (Hgen _ _ Hk2) as (i & Hi & Heq).
      apply generateUniqueIdentifier_inj in Heq. lia.
    + intros Hk1 [= <-]. destruct (Hgen _ _ Hk1) as (i & Hi & Heq).
      apply generateUniqueIdentifier_inj in Heq. lia.
    + apply Hinj.
Qed.

(** In a fresh scope the allocator returns a name, keeps the scope fresh,
    records the name, and keeps every name recorded before. *)
Lemma getTempVarName_fresh moduleSpecifier this idMapping :
  topMapping this = Some idMapping ->
  mappingFresh (identifierIndex this) idMapping ->
  exists id this' idMapping',
    getTempVarNameForModuleSpecifier moduleSpecifier this = (Normal id, this')
    /\ topMapping this' = Some idMapping'
    /\ mappingFresh (identifierIndex this') idMapping'
    /\ idMapping' !! processedValue (token moduleSpecifier) = Some id
    /\ (forall moduleName id0, idMapping !! moduleName = Some id0 ->
          idMapping' !! moduleName = Some id0).
Proof.
  intros Htop Hfresh.
  destruct (truthy (idMapping !! processedValue (token moduleSpecifier)))
    eqn:Htruthy.
  - destruct (truthy_Some_inv _ Htruthy) as [id Hid].
    exists id, this, idMapping. rewrite Hid in Htruthy.
    split; [now apply getTempVarName_hit with idMapping |]. auto.
  - pose proof (mappingFresh_truthy _ _ _ Hfresh Htruthy) as Hnone.
    eexists _, _, _.
    split; [now apply getTempVarName_miss with idMapping |].
    split; [apply topMapping_allocated, Htop |].
    split; [now apply mappingFresh_insert |].
    split; [apply lookup_insert_eq |].
    intros k id0 Hk. rewrite lookup_insert_ne; [done | congruence].
Qed.

(** Entering a scope gives a fresh scope. *)
Lemma pushTempVarState_fresh this :
  scopeFresh (snd (pushTempVarState this)).
Proof.
  exists ∅. split; [| apply mappingFresh_empty].
  unfold topMapping. simpl. rewrite length_app. simpl.
  replace (length (idMappingStack_ this) + 1 - 1)
    with (length (idMappingStack_ this) + 0) by lia.
  now rewrite lookup_app_r, Nat.add_0_r, Nat.sub_diag by lia.
Qed.

(** Any run of lookups keeps a fresh scope fresh, and returns. *)
Lemma lookups_fresh specifiers : forall this,
  scopeFresh this ->
  exists ids this',
    mapM getTempVarNameForModuleSpecifier specifiers this = (Normal ids, this')
    /\ scopeFresh this'.
Proof.
  induction specifiers as [| ms rest IH]; intros this Hfresh.
  - exists [], this. now split.
  - destruct Hfresh as (idMapping & Htop & Hfresh).
    destruct (getTempVarName_fresh ms this idMapping Htop Hfresh)
      as (id & this1 & idMapping1 & Hrun & Htop1 & Hfresh1 & _).
    destruct (IH this1) as (ids & this2 & Hrest & Hfresh2).
    { now exists idMapping1. }
    exists (id :: ids), this2. split; [| done].
    simpl. rewrite (bind_normal _ _ _ _ _ Hrun).
    now rewrite (bind_normal _ _ _ _ _ Hrest).
Qed.

Lemma transformNamedExport_with_specifier moduleSpecifier this id this' :
  getTempVarNameForModuleSpecifier moduleSpecifier this = (Normal id, this') ->
  transformNamedExport (Some moduleSpecifier) this
  = (Normal (createVariableStatement VAR (BindingName (OfString id))
               (parseExpression_System_get (token moduleSpecifier))),
     this').
Proof.
  intros Hrun. unfold transformNamedExport, transformModuleSpecifier.
  unfold bind at 1. unfold ret at 1.
  now rewrite (bind_normal _ _ _ _ _ Hrun).
Qed.

(** A name that the innermost scope holds stays through a lookup, and a
    lookup for its module name returns it and changes nothing. *)
Lemma getTempVarName_keeps_name moduleName id moduleSpecifier this :
  holdsName moduleName id this ->
  exists id' this',
    getTempVarNameForModuleSpecifier moduleSpecifier this
    = (Normal id', this')
    /\ holdsName moduleName id this'
    /\ (processedValue (token moduleSpecifier) = moduleName ->
        id' = id /\ this' = this).
Proof.
  intros (idMapping & Htop & Hname & Htruthy).
  destruct (truthy (idMapping !! processedValue (token moduleSpecifier)))
    eqn:Hlookup.
  - destruct (truthy_Some_inv _ Hlookup) as [id0 Hid0].
    exists id0, this. rewrite Hid0 in Hlookup.
    split; [now apply getTempVarName_hit with idMapping |].
    split; [now exists idMapping |].
    intros <-. split; [congruence | reflexivity].
  - assert (Hother : processedValue (token moduleSpecifier) <> moduleName).
    { intros Heq. rewrite Heq, Hname, Htruthy in Hlookup. discriminate. }
    eexists _, _.
    split; [now apply getTempVarName_miss with idMapping |].
    split; [| done].
    eexists. split; [apply topMapping_allocated, Htop |].
    split; [| exact Htruthy]. now rewrite lookup_insert_ne.
Qed.

(** A name that the innermost scope holds stays through any run of lookups,
    and every lookup of the run for its module name returns it. *)
Lemma lookups_keep_name moduleName id specifiers : forall this,
  holdsName moduleName id this ->
  exists ids this',
    mapM getTempVarNameForModuleSpecifier specifiers this
    = (Normal ids, this')
    /\ holdsName moduleName id this'
    /\ Forall2 (fun ms id' =>
                  processedValue (token ms) = moduleName -> id' = id)
         specifiers ids.
Proof.
  induction specifiers as [| ms rest IH]; intros this Hholds.
  - exists [], this. split; [done |]. split; [done | constructor].
  - destruct (getTempVarName_keeps_name _ _ ms _ Hholds)
      as (id' & this1 & Hrun & Hholds1 & Hsame).
    destruct (IH this1 Hholds1) as (ids & this2 & Hrest & Hholds2 & Hall).
    exists (id' :: ids), this2. split.
    { simpl. rewrite (bind_normal _ _ _ _ _ Hrun).
      now rewrite (bind_normal _ _ _ _ _ Hrest). }
    split; [done |]. constructor; [| done]. intros Heq. now apply Hsame.
Qed.

(** The same through any run of named exports that carry module
    specifiers: each lowers to the declaration of the name its lookup
    returns. *)
Lemma named_exports_keep_name moduleName id specifiers statements :
  Forall2 (fun ms statement =>
             exists location specifierSet,
               statement = NamedExport location (Some ms) specifierSet)
    specifiers statements ->
  forall this,
    holdsName moduleName id this ->
    exists ids this',
      transformList transformAny statements this
      = (Normal
           (zip_with (fun ms id' =>
                        createVariableStatement VAR
                          (BindingName (OfString id'))
                          (parseExpression_System_get (token ms)))
              specifiers ids),
         this')
      /\ length ids = length specifiers
      /\ holdsName moduleName id this'
      /\ Forall2 (fun ms id' =>
                    processedValue (token ms) = moduleName -> id' = id)
           specifiers ids.
Proof.
  unfold transformList.
  induction 1 as [| ms statement specifiers statements
                    (location & specifierSet & ->) _ IH];
    intros this Hholds.
  - exists [], this. split; [done |]. split; [done |].
    split; [done | constructor].
  - destruct (getTempVarName_keeps_name _ _ ms _ Hholds)
      as (id' & this1 & Hrun & Hholds1 & Hsame).
    destruct (IH this1 Hholds1)
      as (ids & this2 & Hrest & Hlength & Hholds2 & Hall).
    exists (id' :: ids), this2. split.
    { simpl. rewrite (bind_normal _ _ _ _ _
                        (transformNamedExport_with_specifier _ _ _ _ Hrun)).
      now rewrite (bind_normal _ _ _ _ _ Hrest). }
    split; [simpl; congruence |]. split; [done |].
    constructor; [| done]. intros Heq. now apply Hsame.
Qed.

(** C3, as the code has it.  Within one scope the allocator is idempotent
    per specifier value: two lookups with module specifiers of the same
    processed token value return the identical temp name, and the second
    lookup changes nothing.  From then on every named-export statement that
    re-exports from that value, whatever its tokens and however many
    symbols it names, lowers to its own statement [var <name> =
    System.get(<token>)] binding that one name, and allocates nothing: one
    temp name per specifier value, one lookup-call statement per export
    statement.  The two lookups need not follow each other: after any run
    of lookups in the scope, for any module specifiers, and after any run
    of named exports from any module specifiers, the lookup for the value
    still returns the first name, and so does every lookup for the value
    inside the run. *)
Theorem getTempVarNameForModuleSpecifier_idempotent :
  forall this ms1 ms2,
    idMappingStack_ this <> [] ->
    processedValue (token ms1) = processedValue (token ms2) ->
    exists id this1,
      getTempVarNameForModuleSpecifier ms1 this = (Normal id, this1)
      /\ getTempVarNameForModuleSpecifier ms2 this1 = (Normal id, this1)
      /\ (forall specifiers statements,
             Forall2 (fun ms statement =>
                        processedValue (token ms) = processedValue (token ms1)
                        /\ exists location specifierSet,
                             statement
                             = NamedExport location (Some ms) specifierSet)
               specifiers statements ->
             transformList transformAny statements this1
             = (Normal
                  (map (fun ms =>
                          createVariableStatement VAR
                            (BindingName (OfString id))
                            (parseExpression_System_get (token ms)))
                     specifiers),
                this1))
      /\ (forall between,
             exists ids this2,
               mapM getTempVarNameForModuleSpecifier between this1
               = (Normal ids, this2)
               /\ Forall2 (fun ms id' =>
                             processedValue (token ms)
                             = processedValue (token ms1) ->
                             id' = id)
                    between ids
               /\ getTempVarNameForModuleSpecifier ms2 this2
                  = (Normal id, this2))
      /\ (forall specifiers statements,
             Forall2 (fun ms statement =>
                        exists location specifierSet,
                          statement
                          = NamedExport location (Some ms) specifierSet)
               specifiers statements ->
             exists ids this2,
               transformList transformAny statements this1
               = (Normal
                    (zip_with (fun ms id' =>
                                 createVariableStatement VAR
                                   (BindingName (OfString id'))
                                   (parseExpression_System_get (token ms)))
                       specifiers ids),
                  this2)
               /\ length ids = length specifiers
               /\ Forall2 (fun ms id' =>
                             processedValue (token ms)
                             = processedValue (token ms1) ->
                             id' = id)
                    specifiers ids
               /\ getTempVarNameForModuleSpecifier ms2 this2
                  = (Normal id, this2)).
Proof.
  intros this ms1 ms2 Hne Hsame.
  destruct (getTempVarName_returns ms1 this Hne)
    as (id & this1 & idMapping1 & Hrun & _ & Htruthy & Htop1 & Hid).
  assert (Hhit : forall ms,
             processedValue (token ms) = processedValue (token ms1) ->
             getTempVarNameForModuleSpecifier ms this1 = (Normal id, this1)).
  { intros ms Hms. apply getTempVarName_hit with idMapping1; [done | | done].
    now rewrite Hms. }
  assert (Hholds : holdsName (processedValue (token ms1)) id this1)
    by now exists idMapping1.
  assert (Hagain : forall this2,
             holdsName (processedValue (token ms1)) id this2 ->
             getTempVarNameForModuleSpecifier ms2 this2 = (Normal id, this2)).
  { intros this2 Hholds2.
    destruct (getTempVarName_keeps_name _ _ ms2 _ Hholds2)
      as (id' & this' & Hrun2 & _ & Hsame2).
    destruct (Hsame2 (eq_sym Hsame)) as [-> ->]. exact Hrun2. }
  exists id, this1. split; [done |]. split; [now apply Hhit |].
  split; [| split].
  - intros specifiers statements Hall.
    induction Hall as [| ms statement specifiers statements Hhead _ IH].
    + reflexivity.
    + destruct Hhead as (Hms & location & specifierSet & ->).
      unfold transformList in *. simpl.
      rewrite (bind_normal _ _ _ _ _
                 (transformNamedExport_with_specifier _ _ _ _ (Hhit ms Hms))).
      now rewrite (bind_normal _ _ _ _ _ IH).
  - intros between.
    destruct (lookups_keep_name _ _ between _ Hholds)
      as (ids & this2 & Hruns & Hholds2 & Hall).
    exists ids, this2. split; [done |]. split; [done |]. now apply Hagain.
  - intros specifiers statements Hall.
    destruct (named_exports_keep_name _ _ _ _ Hall _ Hholds)
      as (ids & this2 & Hruns & Hlength & Hholds2 & Hsames).
    exists ids, this2. split; [done |]. split; [done |]. split; [done |].
    now apply Hagain.
Qed.

Lemma getTempVarNameForModuleSpecifier_idempotent_witness :
  idMappingStack_ exampleTransformer <> []
  /\ processedValue (token (specifierOf "'m'" "m"))
     = processedValue (token (specifierOf "'\x6d'" "m"))
  /\ exists id this1,
      getTempVarNameForModuleSpecifier (specifierOf "'m'" "m") exampleTransformer
      = (Normal id, this1)
      /\ getTempVarNameForModuleSpecifier (specifierOf "'\x6d'" "m") this1
         = (Normal id, this1)
      /\ transformList transformAny
           [reexportOf "a" "'m'" "m"; reexportOf "b" "'\x6d'" "m"] this1
         = (Normal
              [createVariableStatement VAR (BindingName (OfString id))
                 (parseExpression_System_get (literalOf "'m'" "m"));
               createVariableStatement VAR (BindingName (OfString id))
                 (parseExpression_System_get (literalOf "'\x6d'" "m"))],
            this1)
      /\ exists ids this2,
           mapM getTempVarNameForModuleSpecifier
             [specifierOf "'n'" "n"; specifierOf "'m'" "m"] this1
           = (Normal ids, this2)
           /\ ids = ["$__1"; id]
           /\ id = "$__0"
           /\ getTempVarNameForModuleSpecifier (specifierOf "'\x6d'" "m") this2
              = (Normal id, this2).
Proof.
  split; [discriminate |]. split; [reflexivity |].
  destruct (getTempVarNameForModuleSpecifier_idempotent exampleTransformer
              (specifierOf "'m'" "m") (specifierOf "'\x6d'" "m"))
    as (id & this1 & H1 & H2 & H3 & H4 & _); [discriminate | reflexivity |].
  exists id, this1. split; [exact H1 |]. split; [exact H2 |].
  split.
  { apply (H3 [specifierOf "'m'" "m"; specifierOf "'\x6d'" "m"]).
    repeat constructor; eexists _, _; reflexivity. }
  destruct (H4 [specifierOf "'n'" "n"; specifierOf "'m'" "m"])
    as (ids & this2 & Hruns & _ & Hagain).
  exists ids, this2. split; [exact Hruns |].
  vm_compute in H1. injection H1 as <- <-.
  vm_compute in Hruns. injection Hruns as <- <-.
  split; [reflexivity |]. split; [reflexivity | exact Hagain].
Defined.

(** C3 as stated fails: two export statements that re-export from the same
    specifier value lower to two lookup-call statements for it, not one
    (both bind the one temp name [$__0]). *)
Lemma reexports_same_specifier_two_lookup_calls :
  let statements :=
    [ createVariableStatement VAR (BindingName (OfString "$__0"))
        (parseExpression_System_get (literalOf "'m'" "m"));
      createVariableStatement VAR (BindingName (OfString "$__0"))
        (parseExpression_System_get (literalOf "'m'" "m")) ] in
  fst (transformList transformAny
         [reexportOf "a" "'m'" "m"; reexportOf "b" "'m'" "m"]
         exampleTransformer)
  = Normal statements
  /\ countLookupCalls "m" statements = 2
  /\ countLookupCalls "m" statements <> 1.
Proof.
  split; [vm_compute; reflexivity |].
  split; [reflexivity | discriminate].
Qed.

(** C8.  Within one scope, entered by [pushTempVarState] and after any
    lookups made since, two module specifiers with distinct processed token
    values get two distinct temp names, and re-exporting from the two
    lowers to two bindings [var <name> = System.get(<token>)] with distinct
    names and distinct lookup calls. *)
Theorem getTempVarNameForModuleSpecifier_distinct :
  forall this0 earlier ms1 ms2,
    processedValue (token ms1) <> processedValue (token ms2) ->
    exists ids this1 id1 this2 id2 this3,
      mapM getTempVarNameForModuleSpecifier earlier
        (snd (pushTempVarState this0))
      = (Normal ids, this1)
      /\ getTempVarNameForModuleSpecifier ms1 this1 = (Normal id1, this2)
      /\ getTempVarNameForModuleSpecifier ms2 this2 = (Normal id2, this3)
      /\ id1 <> id2
      /\ transformNamedExport (Some ms1) this1
         = (Normal (createVariableStatement VAR (BindingName (OfString id1))
                      (parseExpression_System_get (token ms1))),
            this2)
      /\ transformNamedExport (Some ms2) this2
         = (Normal (createVariableStatement VAR (BindingName (OfString id2))
                      (parseExpression_System_get (token ms2))),
            this3)
      /\ parseExpression_System_get (token ms1)
         <> parseExpression_System_get (token ms2).
Proof.
  intros this0 earlier ms1 ms2 Hdistinct.
  destruct (lookups_fresh earlier _ (pushTempVarState_fresh this0))
    as (ids & this1 & Hearlier & idMapping1 & Htop1 & Hfresh1).
  destruct (getTempVarName_fresh ms1 this1 idMapping1 Htop1 Hfresh1)
    as (id1 & this2 & idMapping2 & Hrun1 & Htop2 & Hfresh2 & Hid1 & _).
  destruct (getTempVarName_fresh ms2 this2 idMapping2 Htop2 Hfresh2)
    as (id2 & this3 & idMapping3 & Hrun2 & Htop3 & Hfresh3 & Hid2 & Hkept).
  exists ids, this1, id1, this2, id2, this3.
  split; [done |]. split; [done |]. split; [done |].
  split.
  { intros ->. apply Hdistinct.
    destruct Hfresh3 as [_ Hinj]. apply (Hinj _ _ id2); auto. }
  split; [now apply transformNamedExport_with_specifier |].
  split; [now apply transformNamedExport_with_specifier |].
  intros Heq. apply Hdistinct. unfold parseExpression_System_get in Heq.
  congruence.
Qed.

Lemma getTempVarNameForModuleSpecifier_distinct_witness :
  processedValue (token (specifierOf "'m'" "m"))
  <> processedValue (token (specifierOf "'n'" "n"))
  /\ exists ids this1 id1 this2 id2 this3,
      mapM getTempVarNameForModuleSpecifier [specifierOf "'k'" "k"]
        (snd (pushTempVarState exampleTransformer))
      = (Normal ids, this1)
      /\ getTempVarNameForModuleSpecifier (specifierOf "'m'" "m") this1
         = (Normal id1, this2)
      /\ getTempVarNameForModuleSpecifier (specifierOf "'n'" "n") this2
         = (Normal id2, this3)
      /\ id1 <> id2
      /\ transformNamedExport (Some (specifierOf "'m'" "m")) this1
         = (Normal (createVariableStatement VAR (BindingName (OfString id1))
                      (parseExpression_System_get (literalOf "'m'" "m"))),
            this2)
      /\ transformNamedExport (Some (specifierOf "'n'" "n")) this2
         = (Normal (createVariableStatement VAR (BindingName (OfString id2))
                      (parseExpression_System_get (literalOf "'n'" "n"))),
            this3)
      /\ parseExpression_System_get (literalOf "'m'" "m")
         <> parseExpression_System_get (literalOf "'n'" "n").
Proof.
  split; [discriminate |].
  apply (getTempVarNameForModuleSpecifier_distinct exampleTransformer
           [specifierOf "'k'" "k"] (specifierOf "'m'" "m")
           (specifierOf "'n'" "n")).
  discriminate.
Defined.

(** The two names of the run above, computed. *)
Example distinct_names_computed :
  let this1 := snd (pushTempVarState exampleTransformer) in
  let run1 := getTempVarNameForModuleSpecifier (specifierOf "'m'" "m") this1 in
  let run2 :=
    getTempVarNameForModuleSpecifier (specifierOf "'n'" "n") (snd run1) in
  fst run1 = Normal "$__0" /\ fst run2 = Normal "$__1".
Proof. split; reflexivity. Qed.

(** ** Export emission *)

Lemma getGetterExport_specifier_related symbol this location lhs rhs
    moduleSpecifier idName this' :
  tree symbol = ExportSpecifier location lhs rhs ->
  relatedTree symbol = Some moduleSpecifier ->
  getTempVarNameForModuleSpecifier moduleSpecifier this
  = (Normal idName, this') ->
  getGetterExport symbol this
  = (Normal (parsePropertyDefinition_getter (name symbol)
               (createMemberExpression idName (OfToken lhs))),
     this').
Proof.
  intros Htree Hrelated Hrun. unfold getGetterExport.
  rewrite Htree, Hrelated. unfold_M. now rewrite Hrun.
Qed.

Lemma getGetterExport_star_related symbol this location moduleSpecifier
    idName this' :
  tree symbol = ExportStar location ->
  relatedTree symbol = Some moduleSpecifier ->
  getTempVarNameForModuleSpecifier moduleSpecifier this
  = (Normal idName, this') ->
  getGetterExport symbol this
  = (Normal (parsePropertyDefinition_getter (name symbol)
               (createMemberExpression idName (OfString (name symbol)))),
     this').
Proof.
  intros Htree Hrelated Hrun. unfold getGetterExport.
  rewrite Htree, Hrelated. unfold_M. now rewrite Hrun.
Qed.

(** Inside a scope, an accepted export symbol gets its descriptor: a getter
    under the symbol's name. *)
Lemma getGetterExport_returns symbol this :
  idMappingStack_ this <> [] ->
  exportReady symbol = true ->
  exists returnExpression this',
    getGetterExport symbol this
    = (Normal (parsePropertyDefinition_getter (name symbol) returnExpression),
       this')
    /\ sameObject this this'.
Proof.
  intros Hne Hready. unfold exportReady in Hready.
  destruct (tree symbol) eqn:Htree;
    try (eexists _, this; split; [| apply sameObject_refl];
         unfold getGetterExport; rewrite Htree; reflexivity).
  - destruct (relatedTree symbol) as [ms|] eqn:Hrelated.
    + destruct (getTempVarName_returns ms this Hne)
        as (idName & this' & _ & Hrun & Hsame & _).
      eexists _, this'. split; [| exact Hsame].
      eapply getGetterExport_specifier_related; eauto.
    + eexists _, this. split; [| apply sameObject_refl].
      unfold getGetterExport. now rewrite Htree, Hrelated.
  - destruct (relatedTree symbol) as [ms|] eqn:Hrelated; [| discriminate].
    destruct (getTempVarName_returns ms this Hne)
      as (idName & this' & _ & Hrun & Hsame & _).
    eexists _, this'. split; [| exact Hsame].
    eapply getGetterExport_star_related; eauto.
Qed.

(** The descriptors of a list of accepted symbols: one getter per symbol,
    under the symbol's name, in the order of the list. *)
Lemma getGetterExports_return symbols : forall this,
  idMappingStack_ this <> [] ->
  forallb exportReady symbols = true ->
  exists properties this',
    mapM getGetterExport symbols this = (Normal properties, this')
    /\ sameObject this this'
    /\ Forall2 (fun symbol property =>
                  exists returnExpression,
                    property
                    = parsePropertyDefinition_getter (name symbol)
                        returnExpression)
         symbols properties.
Proof.
  induction symbols as [| symbol rest IH]; intros this Hne Hready.
  - exists [], this. split; [done |]. split; [apply sameObject_refl |].
    constructor.
  - simpl in Hready. apply andb_prop in Hready as [Hsymbol Hrest].
    destruct (getGetterExport_returns symbol this Hne Hsymbol)
      as (e & this1 & Hrun & Hsame1).
    destruct (IH this1 (sameObject_nonempty _ _ Hsame1 Hne) Hrest)
      as (properties & this2 & Hruns & Hsame2 & Hall).
    eexists _, this2. split.
    { simpl. rewrite (bind_normal _ _ _ _ _ Hrun).
      now rewrite (bind_normal _ _ _ _ _ Hruns). }
    split; [eapply sameObject_trans; eauto |].
    constructor; eauto.
Qed.

Lemma createExportStatement_returns this m :
  module this = Some m ->
  idMappingStack_ this <> [] ->
  forallb exportReady (getExports m) = true ->
  exists properties this',
    createExportStatement this
    = (Normal (parseStatement_return_exports
                 (ObjectLiteralExpression None properties)),
       this')
    /\ sameObject this this'
    /\ Forall2 (fun symbol property =>
                  exists returnExpression,
                    property
                    = parsePropertyDefinition_getter (name symbol)
                        returnExpression)
         (getExports m) properties.
Proof.
  intros Hmodule Hne Hready.
  destruct (getGetterExports_return (getExports m) this Hne Hready)
    as (properties & this' & Hrun & Hsame & Hall).
  exists properties, this'. split; [| now split].
  unfold createExportStatement. unfold bind at 1. unfold get.
  rewrite Hmodule. now rewrite (bind_normal _ _ _ _ _ Hrun).
Qed.

(** C4.  The getter of an export symbol reads, by the kind of the symbol's
    tree: for an export specifier with a related module specifier, a member
    of the temp name of that specifier, keyed by the specifier's left-hand
    name; for an export specifier without one, the left-hand identifier;
    for a star export with its related specifier, a member of the temp name
    of that specifier, keyed by the export's name; for a tree of any other
    kind, the export's own identifier. *)
Theorem getGetterExport_table :
  forall symbol this,
    idMappingStack_ this <> [] ->
    (forall location lhs rhs moduleSpecifier,
        tree symbol = ExportSpecifier location lhs rhs ->
        relatedTree symbol = Some moduleSpecifier ->
        exists idName this',
          getTempVarNameForModuleSpecifier moduleSpecifier this
          = (Normal idName, this')
          /\ getGetterExport symbol this
             = (Normal (parsePropertyDefinition_getter (name symbol)
                          (MemberExpression None
                             (IdentifierExpression None
                                (createIdentifierToken idName))
                             lhs)),
                this'))
    /\ (forall location lhs rhs,
           tree symbol = ExportSpecifier location lhs rhs ->
           relatedTree symbol = None ->
           getGetterExport symbol this
           = (Normal (parsePropertyDefinition_getter (name symbol)
                        (IdentifierExpression None lhs)),
              this))
    /\ (forall location moduleSpecifier,
           tree symbol = ExportStar location ->
           relatedTree symbol = Some moduleSpecifier ->
           exists idName this',
             getTempVarNameForModuleSpecifier moduleSpecifier this
             = (Normal idName, this')
             /\ getGetterExport symbol this
                = (Normal (parsePropertyDefinition_getter (name symbol)
                             (MemberExpression None
                                (IdentifierExpression None
                                   (createIdentifierToken idName))
                                (createIdentifierToken (name symbol)))),
                   this'))
    /\ (type (tree symbol) <> EXPORT_SPECIFIER ->
        type (tree symbol) <> EXPORT_STAR ->
        getGetterExport symbol this
        = (Normal (parsePropertyDefinition_getter (name symbol)
                     (IdentifierExpression None
                        (createIdentifierToken (name symbol)))),
           this)).
Proof.
  intros symbol this Hne. repeat split.
  - intros location lhs rhs ms Htree Hrelated.
    destruct (getTempVarName_returns ms this Hne)
      as (idName & this' & _ & Hrun & _).
    exists idName, this'. split; [done |].
    eapply getGetterExport_specifier_related; eauto.
  - intros location lhs rhs Htree Hrelated.
    unfold getGetterExport. now rewrite Htree, Hrelated.
  - intros location ms Htree Hrelated.
    destruct (getTempVarName_returns ms this Hne)
      as (idName & this' & _ & Hrun & _).
    exists idName, this'. split; [done |].
    eapply getGetterExport_star_related; eauto.
  - intros Hspecifier Hstar. unfold getGetterExport.
    destruct (tree symbol); try reflexivity; simpl in *; congruence.
Qed.

Lemma getGetterExport_table_witness :
  idMappingStack_ exampleTransformer <> []
  /\ getGetterExport
       {| name := "a"; tree := exportSpecifierOf "a";
          relatedTree := Some (specifierOf "'m'" "m") |} exampleTransformer
     = (Normal (parsePropertyDefinition_getter "a"
                  (MemberExpression None
                     (IdentifierExpression None (createIdentifierToken "$__0"))
                     (createIdentifierToken "a"))),
        allocated "m" exampleTransformer)
  /\ getGetterExport
       {| name := "d"; tree := functionDeclarationOf "d";
          relatedTree := None |} exampleTransformer
     = (Normal (parsePropertyDefinition_getter "d"
                  (IdentifierExpression None (createIdentifierToken "d"))),
        exampleTransformer).
Proof.
  split; [discriminate |]. split.
  - destruct (getGetterExport_table
                {| name := "a"; tree := exportSpecifierOf "a";
                   relatedTree := Some (specifierOf "'m'" "m") |}
                exampleTransformer) as (Hrow & _); [discriminate |].
    destruct (Hrow None (createIdentifierToken "a") None
                (specifierOf "'m'" "m") eq_refl eq_refl)
      as (idName & this' & Hrun & Hgetter).
    rewrite Hgetter.
    vm_compute in Hrun. injection Hrun as <- <-. reflexivity.
  - destruct (getGetterExport_table
                {| name := "d"; tree := functionDeclarationOf "d";
                   relatedTree := None |}
                exampleTransformer) as (_ & _ & _ & Hrow); [discriminate |].
    apply Hrow; discriminate.
Defined.

(** C5.  For an export symbol whose tree is a star export: without a
    related specifier [getGetterExport] fails on its assertion, before any
    name is allocated and with no descriptor; with the related specifier
    the assertion does not fail, and inside a scope the descriptor is
    returned. *)
Theorem getGetterExport_star_needs_specifier :
  forall symbol this,
    type (tree symbol) = EXPORT_STAR ->
    (relatedTree symbol = None ->
     getGetterExport symbol this = (Throw AssertionError, this))
    /\ (forall moduleSpecifier,
           relatedTree symbol = Some moduleSpecifier ->
           fst (getGetterExport symbol this) <> Throw AssertionError
           /\ (idMappingStack_ this <> [] ->
               exists descriptor this',
                 getGetterExport symbol this = (Normal descriptor, this'))).
Proof.
  intros symbol this Htype.
  destruct (tree symbol) eqn:Htree; try discriminate.
  split.
  - intros Hrelated. unfold getGetterExport. now rewrite Htree, Hrelated.
  - intros ms Hrelated. split.
    + unfold getGetterExport, getTempVarNameForModuleSpecifier.
      rewrite Htree, Hrelated. unfold_M.
      destruct (idMappingStack_ this !! _); [| simpl; discriminate].
      destruct (_ !! _) as [id|]; [destruct (truthy (Some id)) |];
        simpl; discriminate.
    + intros Hne.
      destruct (getTempVarName_returns ms this Hne)
        as (idName & this' & _ & Hrun & _).
      eexists _, this'.
      eapply getGetterExport_star_related; eauto.
Qed.

Lemma getGetterExport_star_needs_specifier_witness :
  type (tree brokenStarSymbol) = EXPORT_STAR
  /\ getGetterExport brokenStarSymbol exampleTransformer
     = (Throw AssertionError, exampleTransformer).
Proof.
  split; [reflexivity |].
  apply (getGetterExport_star_needs_specifier brokenStarSymbol
           exampleTransformer eq_refl).
  reflexivity.
Defined.

(** C1.  For a module whose star exports name their module, inside a scope,
    [createExportStatement] returns the single statement [return
    Object.preventExtensions(Object.create(null, <descriptors>))] where
    <descriptors> is an object literal with exactly one property per symbol
    of the module's export list, in the order of that list, each named
    after its symbol and holding a descriptor with just a getter and
    [enumerable: true]. *)
Theorem createExportStatement_descriptors :
  forall this m,
    module this = Some m ->
    idMappingStack_ this <> [] ->
    forallb exportReady (getExports m) = true ->
    exists properties this',
      createExportStatement this
      = (Normal
           (ReturnStatement None
              (CallExpression None (memberOf "Object" "preventExtensions")
                 [CallExpression None (memberOf "Object" "create")
                    [LiteralExpression None NullLiteral;
                     ObjectLiteralExpression None properties]])),
         this')
      /\ length properties = length (getExports m)
      /\ Forall2
           (fun symbol property =>
              exists returnExpression,
                property
                = PropertyNameAssignment None
                    (createIdentifierToken (name symbol))
                    (ObjectLiteralExpression None
                       [PropertyNameAssignment None
                          (createIdentifierToken "get")
                          (FunctionExpression None
                             [ReturnStatement None returnExpression]);
                        PropertyNameAssignment None
                          (createIdentifierToken "enumerable")
                          (LiteralExpression None (BooleanLiteral true))]))
           (getExports m) properties.
Proof.
  intros this m Hmodule Hne Hready.
  destruct (createExportStatement_returns this m Hmodule Hne Hready)
    as (properties & this' & Hrun & _ & Hall).
  exists properties, this'. split; [exact Hrun |].
  split; [symmetry; eapply Forall2_length; eauto | exact Hall].
Qed.

(** The export statement of a module with exports [{a, b, c}], all its own
    bindings: three getters [a], [b], [c], in that order, each returning
    the binding of its name. *)
Lemma createExportStatement_descriptors_witness :
  module (new_ModuleTransformer exampleProject (Some ownModule))
  = Some ownModule
  /\ idMappingStack_ (new_ModuleTransformer exampleProject (Some ownModule))
     <> []
  /\ forallb exportReady (getExports ownModule) = true
  /\ exists properties this',
      createExportStatement
        (new_ModuleTransformer exampleProject (Some ownModule))
      = (Normal
           (ReturnStatement None
              (CallExpression None (memberOf "Object" "preventExtensions")
                 [CallExpression None (memberOf "Object" "create")
                    [LiteralExpression None NullLiteral;
                     ObjectLiteralExpression None properties]])),
         this')
      /\ length properties = 3
      /\ properties
         = map (fun name =>
                  parsePropertyDefinition_getter name
                    (IdentifierExpression None (createIdentifierToken name)))
             ["a"; "b"; "c"].
Proof.
  split; [reflexivity |]. split; [discriminate |]. split; [reflexivity |].
  destruct (createExportStatement_descriptors
              (new_ModuleTransformer exampleProject (Some ownModule))
              ownModule eq_refl)
    as (properties & this' & Hrun & Hlength & _);
    [discriminate | reflexivity |].
  exists properties, this'. split; [exact Hrun |]. split; [exact Hlength |].
  vm_compute in Hrun. now injection Hrun as <- _.
Defined.

(** ** The tree walk *)

(** Induction along the walk of [transformAny]: a property holds of every
    tree when it passes from the children that are walked into to their
    parent and holds of the trees that are not walked into. *)
Lemma ParseTree_walk_ind (P : ParseTree -> Prop) :
  (forall location items, Forall P items -> P (Script location items)) ->
  (forall location items, Forall P items -> P (ModuleTree location items)) ->
  (forall location declaration,
      P declaration -> P (ExportDeclaration location declaration)) ->
  (forall location identifier expression,
      P expression -> P (ModuleDeclaration location identifier expression)) ->
  (forall location importSpecifierSet moduleSpecifier,
      P importSpecifierSet ->
      P (ImportDeclaration location importSpecifierSet moduleSpecifier)) ->
  (forall location trees,
      Forall P trees -> P (ImportSpecifierSet location (ListSpecifiers trees))) ->
  (forall tree, walked tree = false -> P tree) ->
  forall tree, P tree.
Proof.
  intros HScript HModule HExport HDeclaration HImport HSet HLeaf.
  fix IH 1. intros tree.
  destruct tree as
    [ location items | location items | location declaration | | | | |
    | location identifier expression
    | location importSpecifierSet moduleSpecifier
    | location [| trees] | | | | | | | | | | | | | | | | | | | | | ];
    try (apply HLeaf; reflexivity).
  - apply HScript. induction items; constructor; [apply IH | assumption].
  - apply HModule. induction items; constructor; [apply IH | assumption].
  - apply HExport, IH.
  - apply HDeclaration, IH.
  - apply HImport, IH.
  - apply HSet. induction trees; constructor; [apply IH | assumption].
Qed.

Lemma pushTempVarState_nonempty this :
  idMappingStack_ (snd (pushTempVarState this)) <> [].
Proof. simpl. intros H. now apply app_nil in H as [_ H]. Qed.

(** Leaving the scope entered by [pushTempVarState] gives back the
    transformer as it was, up to the names handed out. *)
Lemma popTempVarState_same this this' :
  sameObject (snd (pushTempVarState this)) this' ->
  sameObject this (snd (popTempVarState this')).
Proof.
  intros (Hproject & Hmodule & Hlength). simpl in *.
  repeat split; [done | done |].
  rewrite length_app in Hlength. simpl in Hlength.
  destruct (idMappingStack_ this') as [| m stack] using rev_ind.
  - simpl in Hlength. lia.
  - rewrite removelast_last. rewrite length_app in Hlength.
    simpl in *. lia.
Qed.

Lemma transformList_returns items :
  Forall lowers items ->
  forall this,
    forallb (resolved (project this)) items = true ->
    moduleReady this ->
    idMappingStack_ this <> [] ->
    exists items' this',
      transformList transformAny items this = (Normal items', this')
      /\ sameObject this this'.
Proof.
  unfold transformList.
  induction 1 as [| tree rest Htree _ IH]; intros this Hres Hready Hne.
  - exists [], this. split; [done | apply sameObject_refl].
  - simpl in Hres. apply andb_prop in Hres as [Hres1 Hres2].
    destruct (Htree this Hres1 Hready Hne) as (tree' & this1 & Hrun & Hsame1).
    destruct (IH this1) as (rest' & this2 & Hruns & Hsame2).
    { destruct Hsame1 as (-> & _). exact Hres2. }
    { eapply sameObject_moduleReady; eauto. }
    { eapply sameObject_nonempty; eauto. }
    exists (tree' :: rest'), this2. split.
    + simpl. rewrite (bind_normal _ _ _ _ _ Hrun).
      now rewrite (bind_normal _ _ _ _ _ Hruns).
    + eapply sameObject_trans; eauto.
Qed.

(** What [transformModule] returns: the items are transformed in a new
    scope, the export statement is built in the state they leave, and the
    script holds the registration of the function whose body is the
    directive, the items and the export statement. *)
Lemma transformModule_returns this location items :
  Forall lowers items ->
  forallb (resolved (project this)) items = true ->
  moduleReady this ->
  exists items' this1 properties this2,
    transformList transformAny items (snd (pushTempVarState this))
    = (Normal items', this1)
    /\ createExportStatement this1
       = (Normal (parseStatement_return_exports
                    (ObjectLiteralExpression None properties)),
          this2)
    /\ transformModule transformAny location items this
       = (Normal
            (Script location
               [parseStatement_registerModule (url this)
                  (createUseStrictDirective
                   :: items'
                   ++ [parseStatement_return_exports
                         (ObjectLiteralExpression None properties)])]),
          snd (popTempVarState this2))
    /\ sameObject this (snd (popTempVarState this2)).
Proof.
  intros Hitems Hres Hready.
  destruct (transformList_returns items Hitems (snd (pushTempVarState this)))
    as (items' & this1 & Hrun & Hsame1);
    [exact Hres | exact Hready | apply pushTempVarState_nonempty |].
  pose proof (sameObject_moduleReady _ _ Hsame1 Hready)
    as (_ & m & Hmodule & Hexports).
  destruct (createExportStatement_returns this1 m Hmodule)
    as (properties & this2 & Hexport & Hsame2 & _);
    [eapply sameObject_nonempty; eauto using pushTempVarState_nonempty
    | exact Hexports |].
  pose proof (popTempVarState_same this this2
                (sameObject_trans _ _ _ Hsame1 Hsame2)) as Hsame.
  exists items', this1, properties, this2.
  split; [exact Hrun |]. split; [exact Hexport |]. split; [| exact Hsame].
  unfold transformModule. unfold bind at 1. unfold get.
  destruct Hready as (-> & _). unfold assert. unfold bind at 1. unfold ret at 1.
  unfold bind at 1. unfold pushTempVarState at 1.
  change (withIdMappingStack (idMappingStack_ this ++ [∅]) this)
    with (snd (pushTempVarState this)).
  rewrite (bind_normal _ _ _ _ _ Hrun).
  rewrite (bind_normal _ _ _ _ _ Hexport).
  unfold_M. simpl. pose proof (sameObject_url _ _ Hsame) as Hurl.
  simpl in Hurl. now rewrite Hurl.
Qed.

(** A star import set whose module is resolved expands to one binding
    element per export of that module, and changes nothing. *)
Lemma transformImportSpecifierSet_star walk this location m :
  getModuleForStarTree (project this)
    (ImportSpecifierSet location StarSpecifiers) = Some m ->
  transformImportSpecifierSet walk location StarSpecifiers this
  = (Normal
       (ObjectPattern None
          (map (fun exportSymbol =>
                  BindingElement location
                    (createBindingIdentifier (OfString (name exportSymbol)))
                    None)
             (getExports m))),
     this).
Proof.
  intros Hmodule. unfold transformImportSpecifierSet. unfold_M.
  now rewrite Hmodule.
Qed.

(** Every tree is lowered. *)
Lemma transformAny_lowers tree : lowers tree.
Proof.
  induction tree
    as [ location items IH | location items IH | location declaration IH
       | location identifier expression IH
       | location importSpecifierSet moduleSpecifier IH
       | location trees IH | leaf Hleaf ]
    using ParseTree_walk_ind; intros this Hres Hready Hne.
  - simpl in Hres.
    destruct (transformList_returns items IH this Hres Hready Hne)
      as (items' & this' & Hrun & Hsame).
    eexists _, this'. split; [| exact Hsame].
    simpl. now rewrite (bind_normal _ _ _ _ _ Hrun).
  - simpl in Hres.
    destruct (transformModule_returns this location items IH Hres Hready)
      as (items' & this1 & properties & this2 & _ & _ & Hrun & Hsame).
    eexists _, _. split; [exact Hrun | exact Hsame].
  - apply (IH this Hres Hready Hne).
  - destruct (IH this Hres Hready Hne) as (tree' & this' & Hrun & Hsame).
    eexists _, this'. split; [| exact Hsame].
    simpl. unfold transformModuleDeclaration.
    now rewrite (bind_normal _ _ _ _ _ Hrun).
  - destruct (IH this Hres Hready Hne) as (tree' & this' & Hrun & Hsame).
    eexists _, this'. split; [| exact Hsame].
    simpl. unfold transformImportDeclaration.
    now rewrite (bind_normal _ _ _ _ _ Hrun).
  - simpl in Hres.
    destruct (transformList_returns trees IH this Hres Hready Hne)
      as (items' & this' & Hrun & Hsame).
    eexists _, this'. split; [| exact Hsame].
    simpl. unfold transformImportSpecifierSet.
    now rewrite (bind_normal _ _ _ _ _ Hrun).
  - destruct leaf; try discriminate;
      try (exists_tree_unchanged this).
    + (* a named export *)
      match goal with
      | |- context [NamedExport _ ?o _] => destruct o as [ms|]
      end.
      * destruct (getTempVarName_returns ms this Hne)
          as (id & this' & _ & Hrun & Hsame & _).
        eexists _, this'. split; [| exact Hsame].
        exact (transformNamedExport_with_specifier _ _ _ _ Hrun).
      * exists_tree_unchanged this.
    + (* a star import *)
      match goal with
      | |- context [ImportSpecifierSet _ ?s] =>
          destruct s; [| discriminate]
      end.
      simpl in Hres.
      destruct (getModuleForStarTree _ _) as [m|] eqn:Hmodule;
        [| discriminate].
      eexists _, this. split; [| apply sameObject_refl].
      exact (transformImportSpecifierSet_star _ _ _ _ Hmodule).
    + (* an import specifier *)
      match goal with
      | |- context [ImportSpecifier _ _ ?o] => destruct o
      end; exists_tree_unchanged this.
Qed.

(** ** The module entry point *)

(** C2.  For a transformer that can emit its module and a module tree whose
    star imports are resolved, [transformModule] returns a script whose
    sole statement is the call [System.get('@traceur/module')
    .registerModule(<url>, function() { ... }, this)]; the body of the
    function is the "use strict" directive, then the input statement list
    as [transformList] rewrites it in the new scope, then the return
    statement of the exports, built in the state the list leaves. *)
Theorem transformModule_registers :
  forall this location scriptItemList,
    moduleReady this ->
    forallb (resolved (project this)) scriptItemList = true ->
    exists u items this1 properties this2,
      url this = Some u
      /\ transformList transformAny scriptItemList
           (snd (pushTempVarState this))
         = (Normal items, this1)
      /\ createExportStatement this1
         = (Normal (parseStatement_return_exports
                      (ObjectLiteralExpression None properties)),
            this2)
      /\ transformModule transformAny location scriptItemList this
         = (Normal
              (Script location
                 [ExpressionStatement None
                    (CallExpression None
                       (MemberExpression None
                          (CallExpression None (memberOf "System" "get")
                             [LiteralExpression None
                                (StringLiteral "@traceur/module")])
                          (createIdentifierToken "registerModule"))
                       [LiteralExpression None (StringLiteral u);
                        FunctionExpression None
                          ([ExpressionStatement None
                              (LiteralExpression None
                                 (StringLiteral "use strict"))]
                           ++ items
                           ++ [parseStatement_return_exports
                                 (ObjectLiteralExpression None properties)]);
                        ThisExpression None])]),
            snd (popTempVarState this2)).
Proof.
  intros this location items Hready Hres.
  destruct (transformModule_returns this location items) as
    (items' & this1 & properties & this2 & Hitems & Hexport & Hrun & _);
    [apply Forall_forall; intros; apply transformAny_lowers | done | done |].
  destruct Hready as (Hurl & _).
  destruct (truthy_Some_inv _ Hurl) as [u Hu].
  exists u, items', this1, properties, this2.
  split; [exact Hu |]. split; [exact Hitems |]. split; [exact Hexport |].
  rewrite Hrun, Hu. reflexivity.
Qed.

Lemma transformModule_registers_witness :
  moduleReady exampleTransformer
  /\ forallb (resolved (project exampleTransformer)) exampleItems = true
  /\ exists items this1 properties this2,
      transformList transformAny exampleItems
        (snd (pushTempVarState exampleTransformer))
      = (Normal items, this1)
      /\ createExportStatement this1
         = (Normal (parseStatement_return_exports
                      (ObjectLiteralExpression None properties)),
            this2)
      /\ transformAny (ModuleTree None exampleItems) exampleTransformer
         = (Normal
              (Script None
                 [parseStatement_registerModule (Some "example.js")
                    ([createUseStrictDirective] ++ items
                     ++ [parseStatement_return_exports
                           (ObjectLiteralExpression None properties)])]),
            snd (popTempVarState this2)).
Proof.
  assert (Hready : moduleReady exampleTransformer).
  { split; [reflexivity |]. exists exampleModule. split; reflexivity. }
  split; [exact Hready |]. split; [reflexivity |].
  destruct (transformModule_registers exampleTransformer None exampleItems
              Hready eq_refl)
    as (u & items & this1 & properties & this2 & Hu & H1 & H2 & H3).
  injection Hu as <-.
  exists items, this1, properties, this2.
  split; [exact H1 |]. split; [exact H2 | exact H3].
Defined.

(** C6.  The entry points check their preconditions by assertion: the
    static [transform] fails on a tree whose type is not SCRIPT; the static
    [transformAsModule] fails on a tree whose type is not MODULE and on a
    null module; [transformModule] fails when the URL is missing or empty,
    before it enters a scope or builds any statement. *)
Theorem entry_points_assert :
  (forall project tree,
      type tree <> SCRIPT -> transform project tree = Throw AssertionError)
  /\ (forall project module tree,
         type tree <> MODULE \/ module = None ->
         transformAsModule project module tree = Throw AssertionError)
  /\ (forall this location scriptItemList,
         url this = None \/ url this = Some "" ->
         transformModule transformAny location scriptItemList this
         = (Throw AssertionError, this)
         /\ transformAny (ModuleTree location scriptItemList) this
            = (Throw AssertionError, this)).
Proof.
  split; [| split].
  - intros p t Htype. unfold transform.
    now rewrite bool_decide_eq_false_2.
  - intros p m t [Htype | ->]; unfold transformAsModule.
    + now rewrite bool_decide_eq_false_2.
    + now destruct (bool_decide (type t = MODULE)).
  - intros this location items Hurl.
    assert (Hfalsy : truthy (url this) = false)
      by (destruct Hurl as [-> | ->]; reflexivity).
    assert (Hrun : transformModule transformAny location items this
                   = (Throw AssertionError, this)).
    { unfold transformModule. unfold bind at 1. unfold get.
      now rewrite Hfalsy. }
    split; [exact Hrun | exact Hrun].
Qed.

Lemma entry_points_assert_witness :
  transform exampleProject (ModuleTree None exampleItems)
  = Throw AssertionError
  /\ transformAsModule exampleProject (Some exampleModule)
       (Script None exampleItems)
     = Throw AssertionError
  /\ transformAsModule exampleProject None (ModuleTree None exampleItems)
     = Throw AssertionError
  /\ transformModule transformAny None exampleItems
       (new_ModuleTransformer exampleProject
          (Some {| module_url := Some ""; getExports := [] |}))
     = (Throw AssertionError,
        new_ModuleTransformer exampleProject
          (Some {| module_url := Some ""; getExports := [] |})).
Proof.
  destruct entry_points_assert as (Htransform & HasModule & Hmodule).
  split; [apply Htransform; discriminate |].
  split; [apply HasModule; left; discriminate |].
  split; [apply HasModule; right; reflexivity |].
  apply Hmodule. right. reflexivity.
Defined.

(** The statements of the example module, lowered. *)
Example exampleItems_lowered :
  fst (transformList transformAny exampleItems
         (snd (pushTempVarState exampleTransformer)))
  = Normal
      [ createVariableStatement VAR (BindingName (OfString "$__0"))
          (parseExpression_System_get (literalOf "'m'" "m"));
        createVariableStatement VAR (BindingName (OfString "$__0"))
          (parseExpression_System_get (literalOf "'m'" "m"));
        createVariableStatement VAR (BindingName (OfString "$__1"))
          (parseExpression_System_get (literalOf "'n'" "n"));
        EmptyStatement None;
        functionDeclarationOf "d";
        createVariableStatement VAR
          (BindingTree
             (ObjectPattern None
                [ BindingElement (Some (10, 11))
                    (createBindingIdentifier (OfString "x")) None;
                  BindingElement (Some (10, 11))
                    (createBindingIdentifier (OfString "y")) None ]))
          (parseExpression_System_get (literalOf "'target'" "target")) ].
Proof. vm_compute. reflexivity. Qed.

(** ** Import and export lowering *)

(** C7.  A star import specifier set is expanded, when it is transformed,
    into an object pattern with exactly one field per entry of the export
    list of the module the project resolves it to, in the order of that
    list; each field is a binding element that binds the export's own name
    as the local, with no property name and no initializer.  The import
    declaration around it lowers to the variable declaration of that
    pattern, initialized with the lookup of the module. *)
Theorem transformImportSpecifierSet_star_expands :
  forall this location target,
    getModuleForStarTree (project this)
      (ImportSpecifierSet location StarSpecifiers) = Some target ->
    exists fields,
      transformImportSpecifierSet transformAny location StarSpecifiers this
      = (Normal (ObjectPattern None fields), this)
      /\ fields
         = map (fun exportSymbol =>
                  BindingElement location
                    (BindingIdentifier None
                       (createIdentifierToken (name exportSymbol)))
                    None)
             (getExports target)
      /\ length fields = length (getExports target)
      /\ forall declarationLocation moduleSpecifier,
           transformAny
             (ImportDeclaration declarationLocation
                (ImportSpecifierSet location StarSpecifiers) moduleSpecifier)
             this
           = (Normal
                (createVariableStatement VAR
                   (BindingTree (ObjectPattern None fields))
                   (parseExpression_System_get (token moduleSpecifier))),
              this).
Proof.
  intros this location target Htarget.
  pose proof (transformImportSpecifierSet_star transformAny _ _ _ Htarget)
    as Hrun.
  eexists. split; [exact Hrun |]. split; [reflexivity |].
  split; [apply length_map |].
  intros declarationLocation ms.
  change (transformAny (ImportDeclaration declarationLocation
                          (ImportSpecifierSet location StarSpecifiers) ms))
    with (transformImportDeclaration transformAny
            (ImportSpecifierSet location StarSpecifiers) ms).
  unfold transformImportDeclaration.
  change (transformAny (ImportSpecifierSet location StarSpecifiers))
    with (transformImportSpecifierSet transformAny location StarSpecifiers).
  now rewrite (bind_normal _ _ _ _ _ Hrun).
Qed.

(** A star import of a module with exports [{x, y}]: a pattern with exactly
    the two fields [x] and [y]. *)
Lemma transformImportSpecifierSet_star_expands_witness :
  getModuleForStarTree (project exampleTransformer)
    (ImportSpecifierSet (Some (10, 11)) StarSpecifiers) = Some exampleTarget
  /\ transformImportSpecifierSet transformAny (Some (10, 11)) StarSpecifiers
       exampleTransformer
     = (Normal
          (ObjectPattern None
             [ BindingElement (Some (10, 11))
                 (BindingIdentifier None (createIdentifierToken "x")) None;
               BindingElement (Some (10, 11))
                 (BindingIdentifier None (createIdentifierToken "y")) None ]),
        exampleTransformer).
Proof.
  split; [reflexivity |].
  destruct (transformImportSpecifierSet_star_expands exampleTransformer
              (Some (10, 11)) exampleTarget eq_refl)
    as (fields & Hrun & -> & _).
  exact Hrun.
Defined.

(** C10.  A star import of a module with an empty export list gives an
    object pattern with no fields, and the import declaration still lowers
    to a variable declaration, of the empty pattern; nothing is thrown. *)
Theorem transformImportSpecifierSet_star_empty :
  forall this location target declarationLocation moduleSpecifier,
    getModuleForStarTree (project this)
      (ImportSpecifierSet location StarSpecifiers) = Some target ->
    getExports target = [] ->
    transformImportSpecifierSet transformAny location StarSpecifiers this
    = (Normal (ObjectPattern None []), this)
    /\ transformImportDeclaration transformAny
         (ImportSpecifierSet location StarSpecifiers) moduleSpecifier this
       = (Normal
            (VariableStatement None
               (VariableDeclarationList None VAR
                  [VariableDeclaration None (ObjectPattern None [])
                     (Some (parseExpression_System_get
                              (token moduleSpecifier)))])),
          this)
    /\ transformAny
         (ImportDeclaration declarationLocation
            (ImportSpecifierSet location StarSpecifiers) moduleSpecifier)
         this
       = (Normal
            (VariableStatement None
               (VariableDeclarationList None VAR
                  [VariableDeclaration None (ObjectPattern None [])
                     (Some (parseExpression_System_get
                              (token moduleSpecifier)))])),
          this).
Proof.
  intros this location target declarationLocation ms Htarget Hempty.
  pose proof (transformImportSpecifierSet_star transformAny _ _ _ Htarget)
    as Hrun.
  rewrite Hempty in Hrun. simpl in Hrun.
  assert (Hdeclaration :
            transformImportDeclaration transformAny
              (ImportSpecifierSet location StarSpecifiers) ms this
            = (Normal
                 (VariableStatement None
                    (VariableDeclarationList None VAR
                       [VariableDeclaration None (ObjectPattern None [])
                          (Some (parseExpression_System_get (token ms)))])),
               this)).
  { unfold transformImportDeclaration.
    change (transformAny (ImportSpecifierSet location StarSpecifiers))
      with (transformImportSpecifierSet transformAny location StarSpecifiers).
    now rewrite (bind_normal _ _ _ _ _ Hrun). }
  split; [exact Hrun |]. split; exact Hdeclaration.
Qed.

Lemma transformImportSpecifierSet_star_empty_witness :
  getModuleForStarTree (project exampleTransformer)
    (ImportSpecifierSet (Some (20, 21)) StarSpecifiers) = Some emptyTarget
  /\ getExports emptyTarget = []
  /\ transformAny
       (ImportDeclaration None
          (ImportSpecifierSet (Some (20, 21)) StarSpecifiers)
          (specifierOf "'empty'" "empty"))
       exampleTransformer
     = (Normal
          (VariableStatement None
             (VariableDeclarationList None VAR
                [VariableDeclaration None (ObjectPattern None [])
                   (Some (parseExpression_System_get
                            (literalOf "'empty'" "empty")))])),
        exampleTransformer).
Proof.
  split; [reflexivity |]. split; [reflexivity |].
  apply (transformImportSpecifierSet_star_empty exampleTransformer
           (Some (20, 21)) emptyTarget None (specifierOf "'empty'" "empty")
           eq_refl eq_refl).
Defined.

(** C9, as the code has it.  A named export that carries a module
    specifier lowers, inside a scope, to the variable declaration that
    binds the temp name of the specifier to the lowered specifier
    expression; a named export without a module specifier lowers to an
    empty statement with a null location, which [transformList] keeps at
    the statement's place in the output list. *)
Theorem transformNamedExport_lowering :
  forall this,
    idMappingStack_ this <> [] ->
    (forall location moduleSpecifier specifierSet,
        exists idName this',
          getTempVarNameForModuleSpecifier moduleSpecifier this
          = (Normal idName, this')
          /\ transformNamedExport (Some moduleSpecifier) this
             = (Normal
                  (VariableStatement None
                     (VariableDeclarationList None VAR
                        [VariableDeclaration None
                           (BindingIdentifier None
                              (createIdentifierToken idName))
                           (Some (parseExpression_System_get
                                    (token moduleSpecifier)))])),
                this')
          /\ transformAny
               (NamedExport location (Some moduleSpecifier) specifierSet) this
             = transformNamedExport (Some moduleSpecifier) this)
    /\ transformNamedExport None this = (Normal (EmptyStatement None), this)
    /\ (forall location specifierSet,
           transformAny (NamedExport location None specifierSet) this
           = (Normal (EmptyStatement None), this)
           /\ transformList transformAny
                [NamedExport location None specifierSet] this
              = (Normal [EmptyStatement None], this)).
Proof.
  intros this Hne. split; [| split].
  - intros location ms specifierSet.
    destruct (getTempVarName_returns ms this Hne)
      as (idName & this' & _ & Hrun & _).
    exists idName, this'. split; [exact Hrun |]. split; [| reflexivity].
    exact (transformNamedExport_with_specifier _ _ _ _ Hrun).
  - reflexivity.
  - intros location specifierSet. split; reflexivity.
Qed.

Lemma transformNamedExport_lowering_witness :
  idMappingStack_ exampleTransformer <> []
  /\ transformNamedExport (Some (specifierOf "'m'" "m")) exampleTransformer
     = (Normal
          (VariableStatement None
             (VariableDeclarationList None VAR
                [VariableDeclaration None
                   (BindingIdentifier None (createIdentifierToken "$__0"))
                   (Some (parseExpression_System_get (literalOf "'m'" "m")))])),
        allocated "m" exampleTransformer)
  /\ transformNamedExport None exampleTransformer
     = (Normal (EmptyStatement None), exampleTransformer).
Proof.
  split; [discriminate |].
  destruct (transformNamedExport_lowering exampleTransformer)
    as (Hwith & Hwithout & _); [discriminate |].
  split; [| exact Hwithout].
  destruct (Hwith None (specifierOf "'m'" "m") (ExportSpecifierSet None []))
    as (idName & this' & Hrun & Hexport & _).
  rewrite Hexport. vm_compute in Hrun. injection Hrun as <- <-. reflexivity.
Defined.

(** C9 as stated fails: a named export without a module specifier does
    contribute a statement.  The body [export {c};] lowers to a list of one
    statement, the empty statement, not to the empty list, and the function
    body of the transformed module has three statements. *)
Lemma named_export_without_specifier_contributes_statement :
  let exportC :=
    NamedExport None None (ExportSpecifierSet None [exportSpecifierOf "c"]) in
  fst (transformList transformAny [exportC] exampleTransformer)
  = Normal [EmptyStatement None]
  /\ fst (transformList transformAny [exportC] exampleTransformer)
     <> Normal []
  /\ fst (transformAny (ModuleTree None [exportC])
            (new_ModuleTransformer exampleProject (Some ownModule)))
     = Normal
         (Script None
            [parseStatement_registerModule (Some "own.js")
               [ createUseStrictDirective;
                 EmptyStatement None;
                 parseStatement_return_exports
                   (ObjectLiteralExpression None
                      (map (fun name =>
                              parsePropertyDefinition_getter name
                                (createIdentifierExpression (OfString name)))
                         ["a"; "b"; "c"])) ]]).
Proof.
  split; [reflexivity |]. split; [discriminate |].
  vm_compute. reflexivity.
Qed.

(** * Further properties of the transformer *)

(** ** Runs of the monad *)

Lemma bind_inv {A B} (m : M A) (k : A -> M B) this r this2 :
  bind m k this = (r, this2) ->
  (exists a this1, m this = (Normal a, this1) /\ k a this1 = (r, this2))
  \/ (exists e, m this = (Throw e, this2) /\ r = Throw e).
Proof.
  unfold bind. destruct (m this) as [[a | e] this1]; intros Hrun.
  - left. eauto.
  - right. exists e. now injection Hrun as <- <-.
Qed.

Lemma bind_normal_inv {A B} (m : M A) (k : A -> M B) this b this2 :
  bind m k this = (Normal b, this2) ->
  exists a this1, m this = (Normal a, this1) /\ k a this1 = (Normal b, this2).
Proof.
  intros Hrun. apply bind_inv in Hrun as [Hrun | (e & _ & Habs)];
    [exact Hrun | discriminate].
Qed.

Lemma bind_throws {A B} (m : M A) (k : A -> M B) this e this' :
  m this = (Throw e, this') -> bind m k this = (Throw e, this').
Proof. intros Hrun. unfold bind. now rewrite Hrun. Qed.

Lemma keepsOuterScopes_refl this : keepsOuterScopes this this.
Proof. unfold keepsOuterScopes. auto. Qed.

Lemma keepsOuterScopes_trans this1 this2 this3 :
  keepsOuterScopes this1 this2 -> keepsOuterScopes this2 this3 ->
  keepsOuterScopes this1 this3.
Proof.
  unfold keepsOuterScopes.
  intros (H1 & H2 & H3 & H4 & H5) (H6 & H7 & H8 & H9 & H10).
  repeat split; try congruence. lia.
Qed.

(** A run of [mapM] keeps what each of its steps keeps, however it ends. *)
Lemma mapM_keeps {A B} (f : A -> M B) (l : list A) :
  (forall x this r this', f x this = (r, this') -> keepsOuterScopes this this') ->
  forall this r this',
    mapM f l this = (r, this') -> keepsOuterScopes this this'.
Proof.
  intros Hstep. induction l as [| x rest IH]; intros this r this' Hrun.
  - injection Hrun as _ <-. apply keepsOuterScopes_refl.
  - simpl in Hrun. apply bind_inv in Hrun
      as [(y & this1 & Hx & Hrun) | (e & Hx & _)];
      [| now apply Hstep in Hx].
    apply Hstep in Hx.
    apply bind_inv in Hrun as [(ys & this2 & Hrest & Hrun) | (e & Hrest & _)].
    + injection Hrun as _ <-. apply IH in Hrest.
      eapply keepsOuterScopes_trans; eauto.
    + apply IH in Hrest. eapply keepsOuterScopes_trans; eauto.
Qed.

(** A run of [mapM] that returns gives one result per element, and keeps
    what the returning steps on its elements keep. *)
Lemma mapM_normal {A B} (f : A -> M B) (l : list A) :
  Forall (fun x => forall this y this',
              f x this = (Normal y, this') -> keepsOuterScopes this this') l ->
  forall this ys this',
    mapM f l this = (Normal ys, this') ->
    length ys = length l /\ keepsOuterScopes this this'.
Proof.
  induction 1 as [| x rest Hx _ IH]; intros this ys this' Hrun.
  - injection Hrun as <- <-. split; [done | apply keepsOuterScopes_refl].
  - simpl in Hrun.
    apply bind_normal_inv in Hrun as (y & this1 & Hhead & Hrun).
    apply bind_normal_inv in Hrun as (ys' & this2 & Hrest & Hrun).
    injection Hrun as <- <-.
    destruct (IH _ _ _ Hrest) as [Hlength Hkeeps].
    split; [simpl; congruence |].
    eapply keepsOuterScopes_trans; eauto.
Qed.

(** ** The allocator, scope by scope *)

Lemma removelast_alter_last {A} (f : A -> A) (l : list A) :
  removelast (alter f (length l - 1) l) = removelast l.
Proof.
  destruct l as [| x l] using rev_ind; [reflexivity |].
  rewrite length_app. simpl.
  replace (length l + 1 - 1) with (length l + 0) by lia.
  rewrite alter_app_r. simpl. now rewrite !removelast_last.
Qed.

Lemma keepsOuterScopes_allocated moduleName this :
  keepsOuterScopes this (allocated moduleName this).
Proof.
  unfold keepsOuterScopes, allocated. simpl.
  rewrite length_alter, removelast_alter_last. repeat split; lia.
Qed.

(** However a lookup ends, the transformer is as before or has allocated
    the generator's next name for the module name. *)
Lemma getTempVarName_outcome moduleSpecifier this r this' :
  getTempVarNameForModuleSpecifier moduleSpecifier this = (r, this') ->
  this' = this
  \/ (this' = allocated (processedValue (token moduleSpecifier)) this
      /\ r = Normal (generateUniqueIdentifier (identifierIndex this))).
Proof.
  unfold getTempVarNameForModuleSpecifier. unfold_M.
  destruct (idMappingStack_ this !! _) as [idMapping|];
    [| intros [= _ <-]; now left].
  destruct (idMapping !! _) as [id|] eqn:Hid.
  - rewrite <- Hid. destruct (truthy (idMapping !! _)).
    + intros [= _ <-]. now left.
    + intros [= <- <-]. now right.
  - intros [= <- <-]. now right.
Qed.

Lemma getTempVarName_keeps moduleSpecifier this r this' :
  getTempVarNameForModuleSpecifier moduleSpecifier this = (r, this') ->
  keepsOuterScopes this this'.
Proof.
  intros Hrun. apply getTempVarName_outcome in Hrun as [-> | [-> _]].
  - apply keepsOuterScopes_refl.
  - apply keepsOuterScopes_allocated.
Qed.

Lemma topMapping_pushTempVarState this :
  topMapping (snd (pushTempVarState this)) = Some ∅.
Proof.
  unfold topMapping. simpl. rewrite length_app. simpl.
  replace (length (idMappingStack_ this) + 1 - 1)
    with (length (idMappingStack_ this) + 0) by lia.
  now rewrite lookup_app_r, Nat.add_0_r, Nat.sub_diag by lia.
Qed.

(** X1.  Inside a scope a lookup returns and touches nothing but the
    innermost mapping at the module name looked up: the project, the module
    and the depth of the stack stay, every outer mapping stays, every other
    entry of the innermost mapping stays, and the generator advances by at
    most one name. *)
Theorem getTempVarNameForModuleSpecifier_frame :
  forall moduleSpecifier this,
    idMappingStack_ this <> [] ->
    exists id this',
      getTempVarNameForModuleSpecifier moduleSpecifier this
      = (Normal id, this')
      /\ project this' = project this
      /\ module this' = module this
      /\ length (idMappingStack_ this') = length (idMappingStack_ this)
      /\ (forall i, i <> length (idMappingStack_ this) - 1 ->
            idMappingStack_ this' !! i = idMappingStack_ this !! i)
      /\ (forall idMapping idMapping' moduleName,
            topMapping this = Some idMapping ->
            topMapping this' = Some idMapping' ->
            moduleName <> processedValue (token moduleSpecifier) ->
            idMapping' !! moduleName = idMapping !! moduleName)
      /\ identifierIndex this <= identifierIndex this'
         <= S (identifierIndex this).
Proof.
  intros ms this Hne.
  destruct (getTempVarName_returns ms this Hne)
    as (id & this' & _ & Hrun & _).
  exists id, this'. split; [exact Hrun |].
  apply getTempVarName_outcome in Hrun as [-> | [-> _]].
  - repeat split; try done; try lia. intros m m' k Hm Hm' _. congruence.
  - destruct (topMapping_is_Some _ Hne) as [m Hm].
    pose proof (topMapping_allocated (processedValue (token ms)) _ _ Hm)
      as Hm'.
    unfold allocated in *. simpl in *. rewrite length_alter.
    repeat split; try done; try lia.
    + intros i Hi. now apply list_lookup_alter_ne.
    + intros m0 m0' k Hm0 Hm0' Hk.
      rewrite Hm in Hm0. injection Hm0 as <-.
      rewrite Hm' in Hm0'. injection Hm0' as <-.
      rewrite lookup_insert_ne; [done | congruence].
Qed.

Lemma getTempVarNameForModuleSpecifier_frame_witness :
  idMappingStack_ (snd (pushTempVarState exampleTransformer)) <> []
  /\ exists id this',
      getTempVarNameForModuleSpecifier (specifierOf "'m'" "m")
        (snd (pushTempVarState exampleTransformer))
      = (Normal id, this')
      /\ idMappingStack_ this' !! 0 = Some ∅
      /\ length (idMappingStack_ this') = 2.
Proof.
  split; [discriminate |].
  destruct (getTempVarNameForModuleSpecifier_frame (specifierOf "'m'" "m")
              (snd (pushTempVarState exampleTransformer)))
    as (id & this' & Hrun & _ & _ & Hlength & Houter & _); [discriminate |].
  exists id, this'. split; [exact Hrun |].
  split; [rewrite (Houter 0); [reflexivity | discriminate] | exact Hlength].
Defined.

(** X2.  Only the innermost scope is searched.  A module name that has a
    temp name in a scope gets, after [pushTempVarState], a fresh and
    different name, the generator's next one; after [popTempVarState] the
    stack is the one before the push and the module name has its first
    name again. *)
Theorem inner_scope_does_not_see_outer_names :
  forall moduleSpecifier this,
    scopeFresh this ->
    exists id1 this1 id2 this2,
      getTempVarNameForModuleSpecifier moduleSpecifier this
      = (Normal id1, this1)
      /\ getTempVarNameForModuleSpecifier moduleSpecifier
           (snd (pushTempVarState this1))
         = (Normal id2, this2)
      /\ id2 = generateUniqueIdentifier (identifierIndex this1)
      /\ id2 <> id1
      /\ idMappingStack_ (snd (popTempVarState this2))
         = idMappingStack_ this1
      /\ getTempVarNameForModuleSpecifier moduleSpecifier
           (snd (popTempVarState this2))
         = (Normal id1, snd (popTempVarState this2)).
Proof.
  intros ms this (idMapping & Htop & Hfresh).
  destruct (getTempVarName_fresh ms this idMapping Htop Hfresh)
    as (id1 & this1 & idMapping1 & Hrun1 & Htop1 & Hfresh1 & Hid1 & _).
  pose proof (getTempVarName_miss ms _ _ (topMapping_pushTempVarState this1))
    as Hrun2.
  rewrite lookup_empty in Hrun2. specialize (Hrun2 eq_refl).
  eexists id1, this1, _, _. split; [exact Hrun1 |]. split; [exact Hrun2 |].
  split; [reflexivity |].
  assert (Hstack :
            idMappingStack_
              (snd (popTempVarState
                      (allocated (processedValue (token ms))
                         (snd (pushTempVarState this1)))))
            = idMappingStack_ this1).
  { unfold allocated. simpl. rewrite removelast_alter_last.
    apply removelast_last. }
  destruct Hfresh1 as [Hgenerated _].
  destruct (Hgenerated _ _ Hid1) as (i & Hi & ->).
  split.
  { simpl. intros Heq. apply generateUniqueIdentifier_inj in Heq. lia. }
  split; [exact Hstack |].
  apply getTempVarName_hit with idMapping1;
    [| exact Hid1 | apply generateUniqueIdentifier_truthy].
  unfold topMapping. rewrite Hstack. exact Htop1.
Qed.

Lemma inner_scope_does_not_see_outer_names_witness :
  scopeFresh exampleTransformer
  /\ exists this1 this2,
      getTempVarNameForModuleSpecifier (specifierOf "'m'" "m")
        exampleTransformer
      = (Normal "$__0", this1)
      /\ getTempVarNameForModuleSpecifier (specifierOf "'m'" "m")
           (snd (pushTempVarState this1))
         = (Normal "$__1", this2)
      /\ getTempVarNameForModuleSpecifier (specifierOf "'m'" "m")
           (snd (popTempVarState this2))
         = (Normal "$__0", snd (popTempVarState this2)).
Proof.
  assert (Hfresh : scopeFresh exampleTransformer).
  { exists ∅. split; [reflexivity | apply mappingFresh_empty]. }
  split; [exact Hfresh |].
  destruct (inner_scope_does_not_see_outer_names (specifierOf "'m'" "m")
              exampleTransformer Hfresh)
    as (id1 & this1 & id2 & this2 & H1 & H2 & Hid2 & _ & _ & H3).
  assert (Hid1 : id1 = "$__0" /\ identifierIndex this1 = 1).
  { vm_compute in H1. injection H1 as <- <-. split; reflexivity. }
  destruct Hid1 as [-> Hindex]. rewrite Hindex in Hid2. subst id2.
  exists this1, this2. split; [exact H1 |]. split; [exact H2 | exact H3].
Defined.

(** X3.  Outside every scope, with an empty stack of mappings, there is no
    innermost mapping to read: a lookup throws a TypeError and changes
    nothing, and so does a named export that carries a module specifier.
    [popTempVarState] on the empty stack leaves it empty. *)
Theorem lookup_outside_scopes_throws :
  forall moduleSpecifier this,
    idMappingStack_ this = [] ->
    getTempVarNameForModuleSpecifier moduleSpecifier this
    = (Throw TypeError, this)
    /\ transformNamedExport (Some moduleSpecifier) this
       = (Throw TypeError, this)
    /\ idMappingStack_ (snd (popTempVarState this)) = [].
Proof.
  intros ms this Hempty.
  assert (Hrun : getTempVarNameForModuleSpecifier ms this
                 = (Throw TypeError, this)).
  { unfold getTempVarNameForModuleSpecifier. unfold_M. now rewrite Hempty. }
  split; [exact Hrun |]. split.
  - unfold transformNamedExport, transformModuleSpecifier. unfold_M.
    now rewrite Hrun.
  - simpl. now rewrite Hempty.
Qed.

(** The constructor's scope, popped: the stack is empty and lookups
    throw. *)
Lemma lookup_outside_scopes_throws_witness :
  idMappingStack_ (snd (popTempVarState exampleTransformer)) = []
  /\ getTempVarNameForModuleSpecifier (specifierOf "'m'" "m")
       (snd (popTempVarState exampleTransformer))
     = (Throw TypeError, snd (popTempVarState exampleTransformer)).
Proof.
  split; [reflexivity |].
  apply (lookup_outside_scopes_throws (specifierOf "'m'" "m")
           (snd (popTempVarState exampleTransformer)) eq_refl).
Defined.

(** X4.  The statement of a re-export and the getters of its symbols agree
    on the temp name.  After a named export from a module specifier is
    lowered to [var <id> = System.get(<token>)], the getter of an export
    specifier symbol, or of a star export symbol, related to a specifier of
    the same processed value reads a member of that very [<id>], and
    allocates nothing. *)
Theorem reexport_statement_and_getter_share_name :
  forall moduleSpecifier this,
    idMappingStack_ this <> [] ->
    exists id this1,
      transformNamedExport (Some moduleSpecifier) this
      = (Normal (createVariableStatement VAR (BindingName (OfString id))
                   (parseExpression_System_get (token moduleSpecifier))),
         this1)
      /\ forall symbol related,
           relatedTree symbol = Some related ->
           processedValue (token related)
           = processedValue (token moduleSpecifier) ->
           (forall location lhs rhs,
               tree symbol = ExportSpecifier location lhs rhs ->
               getGetterExport symbol this1
               = (Normal (parsePropertyDefinition_getter (name symbol)
                            (MemberExpression None
                               (IdentifierExpression None
                                  (createIdentifierToken id))
                               lhs)),
                  this1))
           /\ (forall location,
                  tree symbol = ExportStar location ->
                  getGetterExport symbol this1
                  = (Normal (parsePropertyDefinition_getter (name symbol)
                               (MemberExpression None
                                  (IdentifierExpression None
                                     (createIdentifierToken id))
                                  (createIdentifierToken (name symbol)))),
                     this1)).
Proof.
  intros ms this Hne.
  destruct (getTempVarName_returns ms this Hne)
    as (id & this1 & idMapping1 & Hrun & _ & Htruthy & Htop1 & Hid).
  exists id, this1.
  split; [exact (transformNamedExport_with_specifier _ _ _ _ Hrun) |].
  intros symbol related Hrelated Hvalue.
  assert (Hhit : getTempVarNameForModuleSpecifier related this1
                 = (Normal id, this1)).
  { apply getTempVarName_hit with idMapping1; [done | | done].
    now rewrite Hvalue. }
  split.
  - intros location lhs rhs Htree.
    exact (getGetterExport_specifier_related _ _ _ _ _ _ _ _
             Htree Hrelated Hhit).
  - intros location Htree.
    exact (getGetterExport_star_related _ _ _ _ _ _ Htree Hrelated Hhit).
Qed.

Lemma reexport_statement_and_getter_share_name_witness :
  idMappingStack_ exampleTransformer <> []
  /\ exists this1,
      transformNamedExport (Some (specifierOf "'m'" "m")) exampleTransformer
      = (Normal (createVariableStatement VAR (BindingName (OfString "$__0"))
                   (parseExpression_System_get (literalOf "'m'" "m"))),
         this1)
      /\ getGetterExport
           {| name := "b"; tree := exportSpecifierOf "a";
              relatedTree := Some (specifierOf "'\x6d'" "m") |} this1
         = (Normal (parsePropertyDefinition_getter "b"
                      (MemberExpression None
                         (IdentifierExpression None
                            (createIdentifierToken "$__0"))
                         (createIdentifierToken "a"))),
            this1).
Proof.
  split; [discriminate |].
  destruct (reexport_statement_and_getter_share_name (specifierOf "'m'" "m")
              exampleTransformer)
    as (id & this1 & Hstatement & Hgetters); [discriminate |].
  assert (Hid : id = "$__0").
  { vm_compute in Hstatement. now injection Hstatement as <- _. }
  subst id. exists this1. split; [exact Hstatement |].
  destruct (Hgetters
              {| name := "b"; tree := exportSpecifierOf "a";
                 relatedTree := Some (specifierOf "'\x6d'" "m") |}
              (specifierOf "'\x6d'" "m") eq_refl eq_refl) as [Hspecifier _].
  exact (Hspecifier None (createIdentifierToken "a") None eq_refl).
Defined.

(** ** Export emission, run by run *)

Lemma getGetterExport_keeps symbol this r this' :
  getGetterExport symbol this = (r, this') -> keepsOuterScopes this this'.
Proof.
  unfold getGetterExport. intros Hrun.
  apply bind_inv in Hrun
    as [(e & this1 & Hexpression & Hret) | (err & Hexpression & _)];
    [injection Hret as _ <- |];
    (destruct (tree symbol);
     try (injection Hexpression as _ <-; apply keepsOuterScopes_refl);
     destruct (relatedTree symbol);
     repeat match goal with
       | H : bind _ _ _ = _ |- _ =>
           apply bind_inv in H as [(? & ? & ? & H) | (? & H & _)]
       | H : ret _ _ = _ |- _ => injection H as _ <-
       | H : throw _ _ = _ |- _ => injection H as _ <-
       | H : assert _ _ = _ |- _ => simpl in H
       | H : getTempVarNameForModuleSpecifier _ _ = _ |- _ =>
           apply getTempVarName_keeps in H
       end;
     eauto using keepsOuterScopes_refl, keepsOuterScopes_trans).
Qed.

Lemma createExportStatement_keeps this r this' :
  createExportStatement this = (r, this') -> keepsOuterScopes this this'.
Proof.
  unfold createExportStatement. unfold bind at 1. unfold get.
  destruct (module this) as [m|];
    [| intros [= _ <-]; apply keepsOuterScopes_refl].
  intros Hrun.
  apply bind_inv in Hrun as [(ps & this1 & Hmap & Hret) | (e & Hmap & _)];
    [injection Hret as _ <- |];
    exact (mapM_keeps _ _ getGetterExport_keeps _ _ _ Hmap).
Qed.

(** Export emission stops at the first star export that names no module:
    the assertion fails. *)
Lemma getGetterExports_throw symbols : forall this,
  idMappingStack_ this <> [] ->
  forallb exportReady symbols = false ->
  exists this',
    mapM getGetterExport symbols this = (Throw AssertionError, this').
Proof.
  induction symbols as [| symbol rest IH]; intros this Hne Hready;
    [discriminate |].
  simpl in Hready. destruct (exportReady symbol) eqn:Hsymbol.
  - destruct (getGetterExport_returns symbol this Hne Hsymbol)
      as (e & this1 & Hrun & Hsame).
    destruct (IH this1 (sameObject_nonempty _ _ Hsame Hne) Hready)
      as (this2 & Hrest).
    exists this2. simpl. rewrite (bind_normal _ _ _ _ _ Hrun).
    unfold bind. now rewrite Hrest.
  - exists this. simpl. unfold exportReady in Hsymbol.
    unfold bind at 1. unfold getGetterExport.
    destruct (tree symbol); try discriminate.
    destruct (relatedTree symbol); [discriminate | reflexivity].
Qed.

(** X5.  For a module whose export symbols are all declared by trees that
    are neither export specifiers nor star exports, [createExportStatement]
    builds, in any state and without touching the transformer, the
    descriptors of the export list in order, each getter returning the
    identifier of its own name; a related tree of such a symbol is not
    looked at. *)
Theorem createExportStatement_own_bindings :
  forall this m,
    module this = Some m ->
    Forall (fun symbol =>
              type (tree symbol) <> EXPORT_SPECIFIER
              /\ type (tree symbol) <> EXPORT_STAR)
      (getExports m) ->
    createExportStatement this
    = (Normal
         (parseStatement_return_exports
            (ObjectLiteralExpression None
               (map (fun symbol =>
                       parsePropertyDefinition_getter (name symbol)
                         (IdentifierExpression None
                            (createIdentifierToken (name symbol))))
                  (getExports m)))),
       this).
Proof.
  intros this m Hmodule Hown.
  unfold createExportStatement. unfold bind at 1. unfold get.
  rewrite Hmodule.
  assert (Hmap : mapM getGetterExport (getExports m) this
                 = (Normal
                      (map (fun symbol =>
                              parsePropertyDefinition_getter (name symbol)
                                (IdentifierExpression None
                                   (createIdentifierToken (name symbol))))
                         (getExports m)),
                    this)).
  { induction Hown as [| symbol rest [Hspecifier Hstar] _ IH];
      [reflexivity |].
    assert (Hsymbol : getGetterExport symbol this
                      = (Normal
                           (parsePropertyDefinition_getter (name symbol)
                              (IdentifierExpression None
                                 (createIdentifierToken (name symbol)))),
                         this)).
    { unfold getGetterExport.
      destruct (tree symbol); try reflexivity; simpl in *; congruence. }
    simpl. rewrite (bind_normal _ _ _ _ _ Hsymbol).
    now rewrite (bind_normal _ _ _ _ _ IH). }
  now rewrite (bind_normal _ _ _ _ _ Hmap).
Qed.

Lemma createExportStatement_own_bindings_witness :
  module (snd (popTempVarState
                 (new_ModuleTransformer exampleProject (Some ownModule))))
  = Some ownModule
  /\ createExportStatement
       (snd (popTempVarState
               (new_ModuleTransformer exampleProject (Some ownModule))))
     = (Normal
          (parseStatement_return_exports
             (ObjectLiteralExpression None
                (map (fun name =>
                        parsePropertyDefinition_getter name
                          (IdentifierExpression None
                             (createIdentifierToken name)))
                   ["a"; "b"; "c"]))),
        snd (popTempVarState
               (new_ModuleTransformer exampleProject (Some ownModule)))).
Proof.
  split; [reflexivity |].
  apply (createExportStatement_own_bindings
           (snd (popTempVarState
                   (new_ModuleTransformer exampleProject (Some ownModule))))
           ownModule eq_refl).
  repeat constructor; discriminate.
Defined.

(** ** Module transforms and the scope stack *)

(** The steps of a [transformModule] that returns. *)
Lemma transformModule_normal_inv location items this r this3 :
  transformModule transformAny location items this = (Normal r, this3) ->
  truthy (url this) = true
  /\ exists items' this1 exportStatement this2,
      transformList transformAny items (snd (pushTempVarState this))
      = (Normal items', this1)
      /\ createExportStatement this1 = (Normal exportStatement, this2)
      /\ this3 = snd (popTempVarState this2)
      /\ r = Script location
               [parseStatement_registerModule (url this3)
                  (createUseStrictDirective :: items' ++ [exportStatement])].
Proof.
  unfold transformModule. intros Hrun.
  apply bind_normal_inv in Hrun as (this0 & this0' & Hget & Hrun).
  injection Hget as <- <-.
  apply bind_normal_inv in Hrun as ([] & this0 & Hassert & Hrun).
  unfold assert in Hassert.
  destruct (truthy (url this)); [| discriminate]. injection Hassert as <-.
  apply bind_normal_inv in Hrun as ([] & thisP & Hpush & Hrun).
  injection Hpush as <-.
  apply bind_normal_inv in Hrun as (items' & this1 & Hitems & Hrun).
  apply bind_normal_inv in Hrun as (exportStatement & this2 & Hexport & Hrun).
  apply bind_normal_inv in Hrun as ([] & thisQ & Hpop & Hrun).
  injection Hpop as <-.
  apply bind_normal_inv in Hrun as (thisR & thisR' & Hget & Hrun).
  injection Hget as <- <-. injection Hrun as <- <-.
  split; [reflexivity |].
  exists items', this1, exportStatement, this2. auto.
Qed.

(** A module transform that returns leaves the stack of scopes exactly as
    it found it. *)
Lemma transformModule_keeps location items this r this3 :
  Forall walkKeeps items ->
  transformModule transformAny location items this = (Normal r, this3) ->
  idMappingStack_ this3 = idMappingStack_ this
  /\ keepsOuterScopes this this3.
Proof.
  intros Hitems Hrun.
  apply transformModule_normal_inv in Hrun
    as (_ & items' & this1 & exportStatement & this2 & Hlist & Hexport
        & -> & _).
  destruct (mapM_normal _ _ Hitems _ _ _ Hlist)
    as (_ & Hp1 & Hm1 & Hl1 & Hr1 & Hi1).
  destruct (createExportStatement_keeps _ _ _ Hexport)
    as (Hp2 & Hm2 & Hl2 & Hr2 & Hi2).
  simpl in *. rewrite removelast_last in Hr1.
  assert (Hstack : removelast (idMappingStack_ this2) = idMappingStack_ this)
    by congruence.
  split; [exact Hstack |].
  unfold keepsOuterScopes. simpl. rewrite Hstack.
  repeat split; try congruence. lia.
Qed.

(** Every tree that [transformAny] returns on keeps the outer scopes. *)
Lemma transformAny_walkKeeps t : walkKeeps t.
Proof.
  induction t
    as [ location items IH | location items IH | location declaration IH
       | location identifier expression IH
       | location importSpecifierSet moduleSpecifier IH
       | location trees IH | leaf Hleaf ]
    using ParseTree_walk_ind; intros this t' this' Hrun.
  - simpl in Hrun. apply bind_normal_inv in Hrun as (ys & this1 & Hlist & Hret).
    injection Hret as _ <-. now apply (mapM_normal _ _ IH) in Hlist.
  - now apply (transformModule_keeps _ _ _ _ _ IH) in Hrun.
  - exact (IH _ _ _ Hrun).
  - simpl in Hrun. unfold transformModuleDeclaration in Hrun.
    apply bind_normal_inv in Hrun as (e & this1 & Hexpression & Hret).
    injection Hret as _ <-. exact (IH _ _ _ Hexpression).
  - simpl in Hrun. unfold transformImportDeclaration in Hrun.
    apply bind_normal_inv in Hrun as (b & this1 & Hbinding & Hrun).
    injection Hrun as _ <-. exact (IH _ _ _ Hbinding).
  - simpl in Hrun. unfold transformImportSpecifierSet in Hrun.
    apply bind_normal_inv in Hrun as (fs & this1 & Hlist & Hret).
    injection Hret as _ <-. now apply (mapM_normal _ _ IH) in Hlist.
  - destruct leaf; try discriminate;
      try (injection Hrun as _ <-; apply keepsOuterScopes_refl).
    + (* a named export *)
      simpl in Hrun. unfold transformNamedExport in Hrun.
      match type of Hrun with
      | context [match ?o with Some _ => _ | None => _ end] =>
          destruct o as [ms|]
      end; [| injection Hrun as _ <-; apply keepsOuterScopes_refl].
      apply bind_normal_inv in Hrun as (e & this1 & Hspecifier & Hrun).
      injection Hspecifier as _ <-.
      apply bind_normal_inv in Hrun as (id & this1 & Hlookup & Hret).
      injection Hret as _ <-. exact (getTempVarName_keeps _ _ _ _ Hlookup).
    + (* a star import *)
      match type of Hrun with
      | context [ImportSpecifierSet _ ?s] => destruct s; [| discriminate]
      end.
      simpl in Hrun. unfold transformImportSpecifierSet in Hrun.
      apply bind_normal_inv in Hrun as (fs & this1 & Hfields & Hret).
      injection Hret as _ <-. unfold bind, get in Hfields.
      destruct (getModuleForStarTree _ _);
        injection Hfields as _ <-; apply keepsOuterScopes_refl.
    + (* an import specifier *)
      simpl in Hrun. unfold transformImportSpecifier in Hrun.
      match type of Hrun with
      | context [match ?o with Some _ => _ | None => _ end] => destruct o
      end; injection Hrun as _ <-; apply keepsOuterScopes_refl.
Qed.

Lemma all_walkKeeps items : Forall walkKeeps items.
Proof. apply Forall_forall. intros t _. apply transformAny_walkKeeps. Qed.

Lemma all_lowers items : Forall lowers items.
Proof. apply Forall_forall. intros t _. apply transformAny_lowers. Qed.

(** X6.  A module transform gives the stack of scopes back as it found it:
    when the transformer can emit its module and the star imports of the
    items are resolved, [transformModule] returns, and afterwards the stack
    of mappings is exactly the one before, the names of the module's scope
    are gone with it, the project and the module are the same, and the
    generator has not stepped back. *)
Theorem transformModule_restores_scopes :
  forall this location scriptItemList,
    moduleReady this ->
    forallb (resolved (project this)) scriptItemList = true ->
    exists script this',
      transformModule transformAny location scriptItemList this
      = (Normal script, this')
      /\ idMappingStack_ this' = idMappingStack_ this
      /\ project this' = project this
      /\ module this' = module this
      /\ identifierIndex this <= identifierIndex this'.
Proof.
  intros this location items Hready Hres.
  destruct (transformModule_returns this location items (all_lowers items)
              Hres Hready)
    as (items' & this1 & properties & this2 & _ & _ & Hrun & _).
  eexists _, _. split; [exact Hrun |].
  destruct (transformModule_keeps _ _ _ _ _ (all_walkKeeps items) Hrun)
    as (Hstack & Hp & Hm & _ & _ & Hi).
  auto.
Qed.

Lemma transformModule_restores_scopes_witness :
  moduleReady exampleTransformer
  /\ forallb (resolved (project exampleTransformer)) exampleItems = true
  /\ exists script this',
      transformModule transformAny None exampleItems exampleTransformer
      = (Normal script, this')
      /\ idMappingStack_ this' = [∅]
      /\ identifierIndex this' = 2.
Proof.
  assert (Hready : moduleReady exampleTransformer).
  { split; [reflexivity |]. exists exampleModule. split; reflexivity. }
  split; [exact Hready |]. split; [reflexivity |].
  destruct (transformModule_restores_scopes exampleTransformer None
              exampleItems Hready eq_refl)
    as (script & this' & Hrun & Hstack & _).
  exists script, this'. split; [exact Hrun |]. split; [exact Hstack |].
  vm_compute in Hrun. now injection Hrun as _ <-.
Defined.

(** How [transformModule] fails when export emission fails: with the
    error of the emission, in the state the emission leaves. *)
Lemma transformModule_emission_throws this location scriptItemList items
    this1 e this2 :
  truthy (url this) = true ->
  transformList transformAny scriptItemList (snd (pushTempVarState this))
  = (Normal items, this1) ->
  createExportStatement this1 = (Throw e, this2) ->
  transformModule transformAny location scriptItemList this
  = (Throw e, this2).
Proof.
  intros Hurl Hitems Hexport. unfold transformModule.
  unfold bind at 1. unfold get. rewrite Hurl. unfold assert.
  unfold bind at 1. unfold ret at 1. unfold bind at 1.
  unfold pushTempVarState at 1.
  change (withIdMappingStack (idMappingStack_ this ++ [∅]) this)
    with (snd (pushTempVarState this)).
  rewrite (bind_normal _ _ _ _ _ Hitems). unfold bind at 1.
  now rewrite Hexport.
Qed.

(** X7.  A module transform of a transformer without a module does not
    leave its scope.  When the URL is there and the items are rewritten,
    [createExportStatement] reads the exports of the missing module and
    [transformModule] throws a TypeError; [popTempVarState] is not
    reached, the transformer is the one the items left, and its stack of
    mappings is one scope deeper than before the call. *)
Theorem transformModule_failure_keeps_scope :
  forall this location scriptItemList items this1,
    truthy (url this) = true ->
    module this = None ->
    transformList transformAny scriptItemList (snd (pushTempVarState this))
    = (Normal items, this1) ->
    transformModule transformAny location scriptItemList this
    = (Throw TypeError, this1)
    /\ length (idMappingStack_ this1) = S (length (idMappingStack_ this)).
Proof.
  intros this location scriptItemList items this1 Hurl Hnone Hitems.
  destruct (mapM_normal _ _ (all_walkKeeps scriptItemList) _ _ _ Hitems)
    as (_ & _ & Hmodule1 & Hlength1 & _).
  simpl in Hmodule1, Hlength1. rewrite length_app in Hlength1.
  simpl in Hlength1. split; [| lia].
  apply (transformModule_emission_throws _ _ _ _ _ _ _ Hurl Hitems).
  unfold createExportStatement. unfold bind, get.
  now rewrite Hmodule1, Hnone.
Qed.

Lemma transformModule_failure_keeps_scope_witness :
  truthy (url (new_ModuleTransformer exampleProject None)) = true
  /\ module (new_ModuleTransformer exampleProject None) = None
  /\ exists items this1,
      transformList transformAny [reexportOf "a" "'m'" "m"]
        (snd (pushTempVarState (new_ModuleTransformer exampleProject None)))
      = (Normal items, this1)
      /\ transformModule transformAny None [reexportOf "a" "'m'" "m"]
           (new_ModuleTransformer exampleProject None)
         = (Throw TypeError, this1)
      /\ length (idMappingStack_ this1) = 2.
Proof.
  split; [reflexivity |]. split; [reflexivity |].
  destruct (transformList transformAny [reexportOf "a" "'m'" "m"]
              (snd (pushTempVarState
                      (new_ModuleTransformer exampleProject None))))
    as [[items | e] this1] eqn:Hitems; [| vm_compute in Hitems; discriminate].
  destruct (transformModule_failure_keeps_scope
              (new_ModuleTransformer exampleProject None)
              None [reexportOf "a" "'m'" "m"] items this1 eq_refl eq_refl
              Hitems)
    as (Hrun & Hlength).
  exists items, this1. split; [reflexivity |].
  split; [exact Hrun | exact Hlength].
Defined.

(** X8.  Every input statement gives exactly one output statement: when
    the transformer can emit its module and the star imports are resolved,
    the function body that [transformModule] registers has the length of
    the input statement list plus two, starts with the strict-mode
    directive and ends with the return statement of the exports; no
    statement is dropped or added in between. *)
Theorem transformModule_body_length :
  forall this location scriptItemList,
    moduleReady this ->
    forallb (resolved (project this)) scriptItemList = true ->
    exists items exportStatement this',
      transformModule transformAny location scriptItemList this
      = (Normal
           (Script location
              [parseStatement_registerModule (url this)
                 (createUseStrictDirective :: items ++ [exportStatement])]),
         this')
      /\ length items = length scriptItemList
      /\ length (createUseStrictDirective :: items ++ [exportStatement])
         = length scriptItemList + 2
      /\ exists expression, exportStatement = ReturnStatement None expression.
Proof.
  intros this location items Hready Hres.
  destruct (transformModule_returns this location items (all_lowers items)
              Hres Hready)
    as (items' & this1 & properties & this2 & Hlist & _ & Hrun & _).
  destruct (mapM_normal _ _ (all_walkKeeps items) _ _ _ Hlist)
    as (Hlength & _).
  eexists items', _, _. split; [exact Hrun |]. split; [exact Hlength |].
  split; [| eexists; reflexivity].
  simpl. rewrite length_app. simpl. lia.
Qed.

Lemma transformModule_body_length_witness :
  moduleReady exampleTransformer
  /\ forallb (resolved (project exampleTransformer)) exampleItems = true
  /\ exists items exportStatement this',
      transformModule transformAny None exampleItems exampleTransformer
      = (Normal
           (Script None
              [parseStatement_registerModule (Some "example.js")
                 (createUseStrictDirective :: items ++ [exportStatement])]),
         this')
      /\ length (createUseStrictDirective :: items ++ [exportStatement]) = 8.
Proof.
  assert (Hready : moduleReady exampleTransformer).
  { split; [reflexivity |]. exists exampleModule. split; reflexivity. }
  split; [exact Hready |]. split; [reflexivity |].
  destruct (transformModule_body_length exampleTransformer None exampleItems
              Hready eq_refl)
    as (items & exportStatement & this' & Hrun & _ & Hlength & _).
  exists items, exportStatement, this'. split; [exact Hrun | exact Hlength].
Defined.

(** X9.  An export declaration adds nothing at the place of its
    declaration: two statement lists that differ only in that some
    statements of one are wrapped in export declarations are rewritten to
    the same list, with the same effect on the transformer and the same
    failure if any, and give the same module transform. *)
Theorem export_declaration_is_transparent :
  forall wrapped plain,
    Forall2 exportWrapped wrapped plain ->
    forall this,
      transformList transformAny wrapped this
      = transformList transformAny plain this
      /\ forall location,
           transformModule transformAny location wrapped this
           = transformModule transformAny location plain this.
Proof.
  intros wrapped plain Hall.
  assert (Hlist : forall this,
             transformList transformAny wrapped this
             = transformList transformAny plain this).
  { unfold transformList.
    induction Hall as [| w p ws ps Hhead _ IH]; intros this; [reflexivity |].
    simpl. assert (Hw : transformAny w = transformAny p)
      by (destruct Hhead as [-> | [location ->]]; reflexivity).
    rewrite Hw. unfold bind at 1 3.
    destruct (transformAny p this) as [[y | e] this1]; [| reflexivity].
    unfold bind. now rewrite IH. }
  intros this. split; [apply Hlist |].
  intros location. unfold transformModule. unfold_M.
  destruct (truthy (url this)); [| reflexivity].
  unfold pushTempVarState. now rewrite Hlist.
Qed.

Lemma export_declaration_is_transparent_witness :
  Forall2 exportWrapped
    [ExportDeclaration None (functionDeclarationOf "d"); namedImport]
    [functionDeclarationOf "d"; namedImport]
  /\ transformModule transformAny None
       [ExportDeclaration None (functionDeclarationOf "d"); namedImport]
       exampleTransformer
     = transformModule transformAny None
         [functionDeclarationOf "d"; namedImport] exampleTransformer.
Proof.
  assert (Hall : Forall2 exportWrapped
                   [ExportDeclaration None (functionDeclarationOf "d");
                    namedImport]
                   [functionDeclarationOf "d"; namedImport]).
  { constructor; [right; now exists None |].
    constructor; [now left | constructor]. }
  split; [exact Hall |].
  apply (export_declaration_is_transparent _ _ Hall exampleTransformer).
Defined.

(** X10.  [transformAsModule] takes the URL from the module and not from
    the project.  With a module whose URL is there and not empty, accepted
    exports and resolved star imports, it returns the script that registers
    the module under the module's URL, whatever URL the project has. *)
Theorem transformAsModule_uses_module_url :
  forall p m location scriptItemList,
    truthy (module_url m) = true ->
    forallb exportReady (getExports m) = true ->
    forallb (resolved p) scriptItemList = true ->
    exists u body,
      module_url m = Some u
      /\ transformAsModule p (Some m) (ModuleTree location scriptItemList)
         = Normal
             (Script location
                [ExpressionStatement None
                   (CallExpression None
                      (MemberExpression None
                         (CallExpression None (memberOf "System" "get")
                            [LiteralExpression None
                               (StringLiteral "@traceur/module")])
                         (createIdentifierToken "registerModule"))
                      [LiteralExpression None (StringLiteral u);
                       FunctionExpression None body;
                       ThisExpression None])]).
Proof.
  intros p m location items Hurl Hexports Hres.
  destruct (transformModule_returns (new_ModuleTransformer p (Some m))
              location items (all_lowers items) Hres)
    as (items' & this1 & properties & this2 & _ & _ & Hrun & _).
  { split; [exact Hurl |]. exists m. now split. }
  destruct (truthy_Some_inv _ Hurl) as [u Hu].
  exists u. eexists. split; [exact Hu |].
  unfold transformAsModule. simpl.
  change (transformAny (ModuleTree location items))
    with (transformModule transformAny location items).
  rewrite Hrun. unfold url. simpl. rewrite Hu. reflexivity.
Qed.

(** The project's URL is [project.js], the module's [own.js]: the module is
    registered under [own.js]. *)
Lemma transformAsModule_uses_module_url_witness :
  truthy (module_url ownModule) = true
  /\ forallb exportReady (getExports ownModule) = true
  /\ forallb (resolved exampleProject) [namedImport] = true
  /\ project_url exampleProject = Some "project.js"
  /\ exists body,
      transformAsModule exampleProject (Some ownModule)
        (ModuleTree None [namedImport])
      = Normal
          (Script None
             [parseStatement_registerModule (Some "own.js") body]).
Proof.
  split; [reflexivity |]. split; [reflexivity |]. split; [reflexivity |].
  split; [reflexivity |].
  destruct (transformAsModule_uses_module_url exampleProject ownModule None
              [namedImport] eq_refl eq_refl eq_refl)
    as (u & body & Hu & Hrun).
  injection Hu as <-. exists body. exact Hrun.
Defined.

(** ** Imports and module declarations *)

(** X11.  An import declaration with a list of import specifiers lowers to
    one variable declaration [var <pattern> = System.get(<token>)] whose
    object pattern has one field per specifier, in order: a specifier with
    a right-hand name gives a field that binds the right-hand name as the
    local to the property of the left-hand name, a specifier without one
    gives a binding of the left-hand name.  It never throws, in any state,
    and leaves the transformer as it is: an import allocates no temp
    name. *)
Theorem transformImportDeclaration_named :
  forall this declarationLocation setLocation trees moduleSpecifier,
    Forall (fun t => exists location lhs rhs,
                t = ImportSpecifier location lhs rhs) trees ->
    exists fields,
      transformAny
        (ImportDeclaration declarationLocation
           (ImportSpecifierSet setLocation (ListSpecifiers trees))
           moduleSpecifier)
        this
      = (Normal
           (VariableStatement None
              (VariableDeclarationList None VAR
                 [VariableDeclaration None (ObjectPattern None fields)
                    (Some (parseExpression_System_get
                             (token moduleSpecifier)))])),
         this)
      /\ Forall2
           (fun t field =>
              exists location lhs rhs,
                t = ImportSpecifier location lhs rhs
                /\ field
                   = match rhs with
                     | Some local =>
                         ObjectPatternField location
                           (LiteralPropertyName (id_location lhs) lhs)
                           (BindingElement location
                              (BindingIdentifier location local) None)
                     | None =>
                         BindingElement location
                           (BindingIdentifier None lhs) None
                     end)
           trees fields.
Proof.
  intros this declarationLocation setLocation trees ms Hall.
  assert (Hlist :
            exists fields,
              mapM transformAny trees this = (Normal fields, this)
              /\ Forall2
                   (fun t field =>
                      exists location lhs rhs,
                        t = ImportSpecifier location lhs rhs
                        /\ field
                           = match rhs with
                             | Some local =>
                                 ObjectPatternField location
                                   (LiteralPropertyName (id_location lhs) lhs)
                                   (BindingElement location
                                      (BindingIdentifier location local) None)
                             | None =>
                                 BindingElement location
                                   (BindingIdentifier None lhs) None
                             end)
                   trees fields).
  { induction Hall as [| t rest (location & lhs & rhs & ->) _ IH].
    - exists []. split; [reflexivity | constructor].
    - destruct IH as (fields & Hrest & Hfields).
      eexists (_ :: fields). split.
      + simpl. unfold bind at 1.
        assert (Hhead : transformImportSpecifier location lhs rhs this
                        = (Normal
                             match rhs with
                             | Some local =>
                                 ObjectPatternField location
                                   (LiteralPropertyName (id_location lhs) lhs)
                                   (BindingElement location
                                      (BindingIdentifier location local) None)
                             | None =>
                                 BindingElement location
                                   (BindingIdentifier None lhs) None
                             end,
                           this))
          by (destruct rhs; reflexivity).
        rewrite Hhead. now rewrite (bind_normal _ _ _ _ _ Hrest).
      + constructor; [| exact Hfields]. now exists location, lhs, rhs. }
  destruct Hlist as (fields & Hrun & Hfields).
  exists fields. split; [| exact Hfields].
  assert (Hset :
            transformAny
              (ImportSpecifierSet setLocation (ListSpecifiers trees)) this
            = (Normal (ObjectPattern None fields), this)).
  { change (transformAny
              (ImportSpecifierSet setLocation (ListSpecifiers trees)))
      with (transformImportSpecifierSet transformAny setLocation
              (ListSpecifiers trees)).
    unfold transformImportSpecifierSet, transformList.
    now rewrite (bind_normal _ _ _ _ _ Hrun). }
  change (transformAny
            (ImportDeclaration declarationLocation
               (ImportSpecifierSet setLocation (ListSpecifiers trees)) ms))
    with (transformImportDeclaration transformAny
            (ImportSpecifierSet setLocation (ListSpecifiers trees)) ms).
  unfold transformImportDeclaration.
  now rewrite (bind_normal _ _ _ _ _ Hset).
Qed.

(** [import {foo as bar, baz} from 'm'] lowers to
    [var {foo: bar, baz} = System.get('m')]. *)
Lemma transformImportDeclaration_named_witness :
  Forall (fun t => exists location lhs rhs,
              t = ImportSpecifier location lhs rhs)
    [ ImportSpecifier (Some (1, 2)) (createIdentifierToken "foo")
        (Some (createIdentifierToken "bar"));
      ImportSpecifier (Some (3, 4)) (createIdentifierToken "baz") None ]
  /\ transformAny namedImport exampleTransformer
     = (Normal
          (VariableStatement None
             (VariableDeclarationList None VAR
                [VariableDeclaration None
                   (ObjectPattern None
                      [ ObjectPatternField (Some (1, 2))
                          (LiteralPropertyName None
                             (createIdentifierToken "foo"))
                          (BindingElement (Some (1, 2))
                             (BindingIdentifier (Some (1, 2))
                                (createIdentifierToken "bar"))
                             None);
                        BindingElement (Some (3, 4))
                          (BindingIdentifier None
                             (createIdentifierToken "baz"))
                          None ])
                   (Some (parseExpression_System_get
                            (literalOf "'m'" "m")))])),
        exampleTransformer).
Proof.
  assert (Hall :
            Forall (fun t => exists location lhs rhs,
                        t = ImportSpecifier location lhs rhs)
              [ ImportSpecifier (Some (1, 2)) (createIdentifierToken "foo")
                  (Some (createIdentifierToken "bar"));
                ImportSpecifier (Some (3, 4)) (createIdentifierToken "baz")
                  None ]).
  { repeat constructor; eexists _, _, _; reflexivity. }
  split; [exact Hall |].
  destruct (transformImportDeclaration_named exampleTransformer None None _
              (specifierOf "'m'" "m") Hall) as (fields & Hrun & _).
  unfold namedImport. rewrite Hrun.
  vm_compute in Hrun. now injection Hrun as <-.
Defined.

(** X12.  A star import that the project has not resolved to a module
    fails when it is transformed: the import specifier set and the import
    declaration around it, bare or inside an export declaration, throw a
    TypeError and leave the transformer as it is; as a statement of a
    module it makes [transformModule] throw the TypeError inside the scope
    the module has entered. *)
Theorem unresolved_star_import_throws :
  forall this location,
    getModuleForStarTree (project this)
      (ImportSpecifierSet location StarSpecifiers) = None ->
    transformImportSpecifierSet transformAny location StarSpecifiers this
    = (Throw TypeError, this)
    /\ forall declarationLocation moduleSpecifier,
         transformAny
           (ImportDeclaration declarationLocation
              (ImportSpecifierSet location StarSpecifiers) moduleSpecifier)
           this
         = (Throw TypeError, this)
         /\ (forall exportLocation,
                transformAny
                  (ExportDeclaration exportLocation
                     (ImportDeclaration declarationLocation
                        (ImportSpecifierSet location StarSpecifiers)
                        moduleSpecifier))
                  this
                = (Throw TypeError, this))
         /\ (forall moduleLocation rest,
                truthy (url this) = true ->
                transformModule transformAny moduleLocation
                  (ImportDeclaration declarationLocation
                     (ImportSpecifierSet location StarSpecifiers)
                     moduleSpecifier
                   :: rest)
                  this
                = (Throw TypeError, snd (pushTempVarState this))).
Proof.
  intros this location Hnone.
  assert (Hset : forall this0,
             project this0 = project this ->
             transformImportSpecifierSet transformAny location StarSpecifiers
               this0
             = (Throw TypeError, this0)).
  { intros this0 Hproject. unfold transformImportSpecifierSet. unfold_M.
    now rewrite Hproject, Hnone. }
  assert (Hdeclaration : forall this0 declarationLocation ms,
             project this0 = project this ->
             transformAny
               (ImportDeclaration declarationLocation
                  (ImportSpecifierSet location StarSpecifiers) ms) this0
             = (Throw TypeError, this0)).
  { intros this0 declarationLocation ms Hproject.
    change (transformAny (ImportDeclaration declarationLocation
                            (ImportSpecifierSet location StarSpecifiers) ms))
      with (transformImportDeclaration transformAny
              (ImportSpecifierSet location StarSpecifiers) ms).
    unfold transformImportDeclaration.
    change (transformAny (ImportSpecifierSet location StarSpecifiers))
      with (transformImportSpecifierSet transformAny location StarSpecifiers).
    unfold bind at 1. now rewrite (Hset this0 Hproject). }
  split; [now apply Hset |].
  intros declarationLocation ms.
  split; [now apply Hdeclaration |].
  split; [intros exportLocation; now apply Hdeclaration |].
  intros moduleLocation rest Hurl.
  unfold transformModule. unfold bind at 1. unfold get. rewrite Hurl.
  unfold assert. unfold bind at 1. unfold ret at 1. unfold bind at 1.
  unfold pushTempVarState at 1.
  change (withIdMappingStack (idMappingStack_ this ++ [∅]) this)
    with (snd (pushTempVarState this)).
  apply bind_throws. unfold transformList. cbn [mapM].
  apply bind_throws. now apply Hdeclaration.
Qed.

Lemma unresolved_star_import_throws_witness :
  getModuleForStarTree (project exampleTransformer)
    (ImportSpecifierSet (Some (30, 31)) StarSpecifiers) = None
  /\ transformAny
       (ImportDeclaration None (starImportSet (Some (30, 31)))
          (specifierOf "'nowhere'" "nowhere"))
       exampleTransformer
     = (Throw TypeError, exampleTransformer).
Proof.
  split; [reflexivity |].
  destruct (unresolved_star_import_throws exampleTransformer (Some (30, 31))
              eq_refl) as (_ & Hdeclaration).
  apply (Hdeclaration None (specifierOf "'nowhere'" "nowhere")).
Defined.

(** X13.  A module declaration lowers to a plain variable declaration: the
    alias identifier, kept as the token it is, is bound without a pattern
    to the transformed expression, and a failure of the expression is the
    failure of the declaration.  With a module specifier as the expression
    it is [var <identifier> = System.get(<token>)], built in any state
    without allocating a temp name. *)
Theorem transformModuleDeclaration_lowering :
  forall this location identifier expression,
    (forall initializer this',
        transformAny expression this = (Normal initializer, this') ->
        transformAny (ModuleDeclaration location identifier expression) this
        = (Normal
             (VariableStatement None
                (VariableDeclarationList None VAR
                   [VariableDeclaration None
                      (BindingIdentifier None identifier)
                      (Some initializer)])),
           this'))
    /\ (forall e this',
           transformAny expression this = (Throw e, this') ->
           transformAny (ModuleDeclaration location identifier expression)
             this
           = (Throw e, this'))
    /\ (forall moduleSpecifier,
           transformAny
             (ModuleDeclaration location identifier
                (ModuleSpecifierTree moduleSpecifier))
             this
           = (Normal
                (VariableStatement None
                   (VariableDeclarationList None VAR
                      [VariableDeclaration None
                         (BindingIdentifier None identifier)
                         (Some (parseExpression_System_get
                                  (token moduleSpecifier)))])),
              this)).
Proof.
  intros this location identifier expression.
  change (transformAny (ModuleDeclaration location identifier expression))
    with (transformModuleDeclaration transformAny identifier expression).
  unfold transformModuleDeclaration. split; [| split].
  - intros initializer this' Hrun. now rewrite (bind_normal _ _ _ _ _ Hrun).
  - intros e this' Hrun. unfold bind. now rewrite Hrun.
  - reflexivity.
Qed.

Lemma transformModuleDeclaration_lowering_witness :
  transformAny
    (ModuleDeclaration None (createIdentifierToken "x")
       (starImportSet (Some (30, 31))))
    exampleTransformer
  = (Throw TypeError, exampleTransformer)
  /\ transformAny
       (ModuleDeclaration None (createIdentifierToken "x")
          (ModuleSpecifierTree (specifierOf "'m'" "m")))
       exampleTransformer
     = (Normal
          (createVariableStatement VAR
             (BindingName (OfToken (createIdentifierToken "x")))
             (parseExpression_System_get (literalOf "'m'" "m"))),
        exampleTransformer).
Proof.
  split.
  - apply (transformModuleDeclaration_lowering exampleTransformer None
             (createIdentifierToken "x") (starImportSet (Some (30, 31)))).
    reflexivity.
  - apply (transformModuleDeclaration_lowering exampleTransformer None
             (createIdentifierToken "x") (starImportSet (Some (30, 31)))).
Defined.

(** ** Entering and leaving scopes *)

(** X14.  [pushTempVarState] followed by [popTempVarState] gives the
    transformer back as it was.  The other way round it does not: leaving
    a scope and entering one again gives a stack of the same depth whose
    innermost mapping is empty, so the names of the scope that was left
    are forgotten. *)
Theorem pushTempVarState_popTempVarState :
  forall this,
    snd (popTempVarState (snd (pushTempVarState this))) = this
    /\ (idMappingStack_ this <> [] ->
        length (idMappingStack_
                  (snd (pushTempVarState (snd (popTempVarState this)))))
        = length (idMappingStack_ this)
        /\ topMapping (snd (pushTempVarState (snd (popTempVarState this))))
           = Some ∅
        /\ removelast
             (idMappingStack_
                (snd (pushTempVarState (snd (popTempVarState this)))))
           = removelast (idMappingStack_ this)).
Proof.
  intros this. split.
  - destruct this as [p m stack index]. unfold popTempVarState,
      pushTempVarState, withIdMappingStack. simpl.
    now rewrite removelast_last.
  - intros Hne. split; [| split].
    + simpl. rewrite length_app. simpl.
      destruct (idMappingStack_ this) as [| x stack] using rev_ind;
        [done |].
      rewrite removelast_last, length_app. reflexivity.
    + apply topMapping_pushTempVarState.
    + simpl. apply removelast_last.
Qed.

Lemma pushTempVarState_popTempVarState_witness :
  idMappingStack_ (allocated "m" exampleTransformer) <> []
  /\ topMapping (allocated "m" exampleTransformer)
     = Some {[ "m" := "$__0" ]}
  /\ topMapping
       (snd (pushTempVarState
               (snd (popTempVarState (allocated "m" exampleTransformer)))))
     = Some ∅.
Proof.
  split; [discriminate |]. split; [reflexivity |].
  destruct (pushTempVarState_popTempVarState
              (allocated "m" exampleTransformer)) as [_ Hreset].
  destruct Hreset as (_ & Htop & _); [discriminate | exact Htop].
Defined.

(** X15.  A module with a star export that names no module cannot be
    emitted, and the failed transform does not leave its scope: when the
    URL is there and the items are rewritten, [transformModule] throws in
    export emission, [popTempVarState] is not reached, and the stack of
    mappings is one scope deeper than before the call. *)
Theorem transformModule_star_without_specifier_throws :
  forall this location scriptItemList items this1 m,
    truthy (url this) = true ->
    transformList transformAny scriptItemList (snd (pushTempVarState this))
    = (Normal items, this1) ->
    module this = Some m ->
    forallb exportReady (getExports m) = false ->
    exists e this2,
      transformModule transformAny location scriptItemList this
      = (Throw e, this2)
      /\ length (idMappingStack_ this2) = S (length (idMappingStack_ this)).
Proof.
  intros this location scriptItemList items this1 m Hurl Hitems Hmodule
    Hready.
  destruct (mapM_normal _ _ (all_walkKeeps scriptItemList) _ _ _ Hitems)
    as (_ & _ & Hmodule1 & Hlength1 & _).
  simpl in Hmodule1, Hlength1. rewrite length_app in Hlength1.
  simpl in Hlength1.
  destruct (getGetterExports_throw (getExports m) this1) as (this2 & Hmap);
    [destruct (idMappingStack_ this1); [simpl in Hlength1; lia | done]
    | exact Hready |].
  assert (Hexport : createExportStatement this1
                    = (Throw AssertionError, this2)).
  { unfold createExportStatement. unfold bind at 1. unfold get.
    rewrite Hmodule1, Hmodule. unfold bind. now rewrite Hmap. }
  exists AssertionError, this2.
  split; [exact (transformModule_emission_throws _ _ _ _ _ _ _
                   Hurl Hitems Hexport) |].
  destruct (createExportStatement_keeps _ _ _ Hexport)
    as (_ & _ & Hlength2 & _).
  lia.
Qed.

Lemma transformModule_star_without_specifier_throws_witness :
  truthy (url (new_ModuleTransformer exampleProject (Some brokenModule)))
  = true
  /\ module (new_ModuleTransformer exampleProject (Some brokenModule))
     = Some brokenModule
  /\ forallb exportReady (getExports brokenModule) = false
  /\ exists items this1 e this2,
      transformList transformAny [reexportOf "a" "'m'" "m"]
        (snd (pushTempVarState
                (new_ModuleTransformer exampleProject (Some brokenModule))))
      = (Normal items, this1)
      /\ transformModule transformAny None [reexportOf "a" "'m'" "m"]
           (new_ModuleTransformer exampleProject (Some brokenModule))
         = (Throw e, this2)
      /\ length (idMappingStack_ this2) = 2.
Proof.
  split; [reflexivity |]. split; [reflexivity |]. split; [reflexivity |].
  destruct (transformList transformAny [reexportOf "a" "'m'" "m"]
              (snd (pushTempVarState
                      (new_ModuleTransformer exampleProject
                         (Some brokenModule)))))
    as [[items | e0] this1] eqn:Hitems;
    [| vm_compute in Hitems; discriminate].
  destruct (transformModule_star_without_specifier_throws
              (new_ModuleTransformer exampleProject (Some brokenModule))
              None [reexportOf "a" "'m'" "m"] items this1 brokenModule
              eq_refl Hitems eq_refl eq_refl)
    as (e & this2 & Hrun & Hlength).
  exists items, this1, e, this2. split; [reflexivity |].
  split; [exact Hrun | exact Hlength].
Defined.
